(** * Living-Land: the point and polygon service of [app.py]

    A shallow embedding of the Flask application: the JSON values a request
    carries, the two mapped classes, the SQLAlchemy session a view works in,
    the lazy creation of the tables before a request, the four views and the
    routing, followed by the properties of Sections 3, 4 and 8 of the
    specification.

    What the repository does not contain is the storage engine behind
    [db].  It is modelled as Section 4.1 of the specification describes it:
    a table is a finite map from the primary key to the other columns, with
    the counter the engine draws new keys from; a value bound to a column is
    stored as the column's type holds it (a Float column holds the float of
    what was written, a String or Text column its text) and is refused
    when the type has no value for it; a commit is atomic.  Limits of the
    engine that the source does not state (the capacity of a TEXT column,
    the range of an INTEGER key) are not modelled. *)

From Stdlib Require Import ZArith Ascii.
From Corelib Require Import PrimFloat.
From Corelib Require FloatOps SpecFloat.
From stdpp Require Import gmap strings list pretty.

Local Open Scope string_scope.
Set Warnings "-register-all".

(** ** JSON values, as [request.json] hands them to a view *)

Inductive json : Type :=
  | JNull
  | JBool (b : bool)
  | JInt (z : Z)
  | JFloat (f : float)
  | JStr (s : string)
  | JArr (items : list json)
  | JObj (members : list (string * json)).

(** The exceptions a view can let escape. *)
Inductive exn : Type :=
  | KeyError (key : string)
  | TypeError
  | ProgrammingError     (* the statement names a table that does not exist *)
  | IntegrityError       (* NULL bound to a nullable=False column *)
  | DataError            (* a value the column's type does not take *)
  | InvalidRequestError  (* an identifier that is no primary key *)
  | OperationalError.    (* CREATE TABLE for a table that exists *)

Inductive result (A : Type) : Type :=
  | Return (a : A)
  | Raise (e : exn).
Arguments Return {A} a.
Arguments Raise {A} e.

(** The dict built from the members of an object: members are entered from
    left to right, so a repeated key keeps its last value. *)
Fixpoint dict_get (k : string) (members : list (string * json)) : option json :=
  match members with
  | [] => None
  | (k', v) :: rest =>
      match dict_get k rest with
      | Some v' => Some v'
      | None => if String.eqb k' k then Some v else None
      end
  end.

(** [data[k]] for a string key [k]: a dict without the key raises KeyError;
    a list or a string is indexed by integers only, and None, a bool and a
    number are not subscriptable: TypeError. *)
Definition getitem (data : json) (k : string) : result json :=
  match data with
  | JObj members =>
      match dict_get k members with
      | Some v => Return v
      | None => Raise (KeyError k)
      end
  | _ => Raise TypeError
  end.

(** [jsonify] of a dict literal. *)
Definition jsonify (d : list (string * json)) : json := JObj d.


(** ** Models *)

(** The column types the two models use; every column is nullable=False. *)
Inductive column : Type :=
  | db_String (length : nat)
  | db_Float
  | db_Text.

(** *** The float of a Python value *)

(** [float(z)] for an int: the nearest double, ties to even; OverflowError
    ([None]) from [2^1024 - 2^970] on, where the nearest double would be
    infinite. *)
Definition float_of_int (z : Z) : option float :=
  if (Z.abs z <? 2 ^ 1024 - 2 ^ 970)%Z
  then Some (FloatOps.SF2Prim
               (SpecFloat.binary_normalize FloatOps.prec FloatOps.emax z 0 false))
  else None.

(** The double nearest to [m * 10^e10], negated when [neg]; [m] is not
    negative.  The quotient by a power of ten is taken with 66 bits and
    more, and a last bit that tells whether the division left a remainder,
    which rounds as the exact quotient does.  Exponents that overflow or
    underflow whatever [m] are answered without the power. *)
Definition nearest_float (neg : bool) (m e10 : Z) : float :=
  let signed (x : Z) := if neg then (- x)%Z else x in
  let round (x e : Z) :=
    FloatOps.SF2Prim
      (SpecFloat.binary_normalize FloatOps.prec FloatOps.emax (signed x) e neg) in
  if (m =? 0)%Z then round 0%Z 0%Z
  else if (310 <? e10)%Z then (if neg then neg_infinity else infinity)
  else if (0 <=? e10)%Z then round (m * 10 ^ e10)%Z 0%Z
  else if (Z.log2 m + 1 + 3 * e10 <=? -1080)%Z then round 0%Z 0%Z
  else
    let d := (10 ^ (- e10))%Z in
    let p := Z.max 0 (Z.log2 d + 66 - Z.log2 m) in
    let q := ((m * 2 ^ p) / d)%Z in
    let sticky := if ((m * 2 ^ p) mod d =? 0)%Z then 0%Z else 1%Z in
    round (2 * q + sticky)%Z (- (p + 1))%Z.

Definition digit_of (a : ascii) : option Z :=
  let n := Z.of_N (N_of_ascii a) in
  if ((48 <=? n) && (n <=? 57))%Z then Some (n - 48)%Z else None.

Definition is_space (a : ascii) : bool :=
  let n := N_of_ascii a in
  (n =? 32)%N || ((9 <=? n) && (n <=? 13))%N.

(** The digits at the head of [cs], read on top of [acc]: the number, how
    many digits were read, and what follows them. *)
Fixpoint read_digits (acc count : Z) (cs : list ascii) : Z * Z * list ascii :=
  match cs with
  | c :: rest =>
      match digit_of c with
      | Some d => read_digits (10 * acc + d) (count + 1) rest
      | None => (acc, count, cs)
      end
  | [] => (acc, count, [])
  end.

Definition read_sign (cs : list ascii) : bool * list ascii :=
  match cs with
  | "-"%char :: rest => (true, rest)
  | "+"%char :: rest => (false, rest)
  | _ => (false, cs)
  end.

Fixpoint strip_left (cs : list ascii) : list ascii :=
  match cs with
  | c :: rest => if is_space c then strip_left rest else cs
  | [] => []
  end.

Definition strip (cs : list ascii) : list ascii :=
  rev (strip_left (rev (strip_left cs))).

(** [float(s)] for a string that writes a decimal literal, with a sign, a
    fraction and an exponent if it has them and white space around it;
    ValueError ([None]) for a string that does not. *)
Definition float_of_string (s : string) : option float :=
  let (neg, cs) := read_sign (strip (String.list_ascii_of_string s)) in
  let '(m1, n1, cs) := read_digits 0 0 cs in
  let '(m, n2, cs) :=
    match cs with
    | "."%char :: rest => read_digits m1 0 rest
    | _ => (m1, 0%Z, cs)
    end in
  if (n1 + n2 =? 0)%Z then None
  else
    match cs with
    | [] => Some (nearest_float neg m (- n2))
    | c :: rest =>
        if (Ascii.eqb c "e" || Ascii.eqb c "E")%char then
          let (eneg, rest) := read_sign rest in
          match read_digits 0 0 rest with
          | (e, ne, []) =>
              if (ne =? 0)%Z then None
              else Some (nearest_float neg m ((if eneg then - e else e) - n2))
          | _ => None
          end
        else None
    end.

(** [float(v)]: a float is itself, an int its nearest double, a bool one or
    zero, a string the number it writes; nothing else has a float. *)
Definition python_float (v : json) : option float :=
  match v with
  | JFloat f => Some f
  | JInt z => float_of_int z
  | JBool b => Some (if b then 1%float else 0%float)
  | JStr s => float_of_string s
  | _ => None
  end.

(** The text a string column holds for a value: a string is its own text,
    an int is written in decimal and a bool is the int it is.  For a float
    the engines do not agree on the digits, and a list or a dict cannot be
    bound: the model has no text for them. *)
Definition text_of (v : json) : option string :=
  match v with
  | JStr s => Some s
  | JInt z => Some (pretty z)
  | JBool b => Some (if b then "1" else "0")
  | _ => None
  end.

(** The value a Float column holds for a Python value: its float, when it
    has one and that is a number.  The float of an int is finite whenever
    it exists; nan and the infinities, which a float or a string can give,
    are not taken by the driver. *)
Definition float_value (v : json) : option float :=
  match v with
  | JInt z => float_of_int z
  | _ =>
      match python_float v with
      | Some f => if is_finite f then Some f else None
      | None => None
      end
  end.

(** What a column holds for a value bound to it in an INSERT or UPDATE, or
    the refusal.  None is refused by every column (nullable=False).  A
    Float column holds the float of the value, and refuses a value that
    has none.  A Text column holds the text of the value, a String column
    does so up to its length, and both refuse a value that has none. *)
Definition bind_param (c : column) (v : json) : result json :=
  match v, c with
  | JNull, _ => Raise IntegrityError
  | _, db_Float =>
      match float_value v with
      | Some f => Return (JFloat f)
      | None => Raise DataError
      end
  | _, db_String n =>
      match text_of v with
      | Some s => if (String.length s <=? n)%nat then Return (JStr s) else Raise DataError
      | None => Raise DataError
      end
  | _, db_Text =>
      match text_of v with
      | Some s => Return (JStr s)
      | None => Raise DataError
      end
  end.

(** The attributes of a PointData instance other than its primary key. An
    attribute holds whatever Python value was assigned to it; [bind] gives
    the row the columns hold for an instance, or the first refusal. *)
Module PointData.
Record t : Type := new { name : json; latitude : json; longitude : json }.

Definition set_name (v : json) (p : t) : t :=
  {| name := v; latitude := latitude p; longitude := longitude p |}.
Definition set_latitude (v : json) (p : t) : t :=
  {| name := name p; latitude := v; longitude := longitude p |}.
Definition set_longitude (v : json) (p : t) : t :=
  {| name := name p; latitude := latitude p; longitude := v |}.

Definition bind (p : t) : result t :=
  match bind_param (db_String 100) (name p) with
  | Raise e => Raise e
  | Return n =>
      match bind_param db_Float (latitude p) with
      | Raise e => Raise e
      | Return la =>
          match bind_param db_Float (longitude p) with
          | Raise e => Raise e
          | Return lo => Return (new n la lo)
          end
      end
  end.
End PointData.

Module PolygonData.
Record t : Type := new { name : json; coordinates : json }.

Definition set_name (v : json) (p : t) : t :=
  {| name := v; coordinates := coordinates p |}.
Definition set_coordinates (v : json) (p : t) : t :=
  {| name := name p; coordinates := v |}.

Definition bind (p : t) : result t :=
  match bind_param (db_String 100) (name p) with
  | Raise e => Raise e
  | Return n =>
      match bind_param db_Text (coordinates p) with
      | Raise e => Raise e
      | Return c => Return (new n c)
      end
  end.
End PolygonData.

(** ** The database *)

(** A table: its rows by primary key, and the counter the next key is drawn
    from. *)
Record table (A : Type) : Type := Table {
  rows : gmap Z A;
  auto_increment : Z
}.
Arguments Table {A} rows auto_increment.
Arguments rows {A} t.
Arguments auto_increment {A} t.

Definition empty_table {A : Type} : table A := Table ∅ 1%Z.

Definition insert_row {A : Type} (t : table A) (a : A) : table A :=
  Table (<[auto_increment t := a]> (rows t)) (auto_increment t + 1)%Z.

(** A table that was never created is [None]. *)
Record database : Type := Database {
  point_data : option (table PointData.t);
  polygon_data : option (table PolygonData.t)
}.

(** [db.create_all()]: creates the tables that do not exist yet and leaves
    the others alone. *)
Definition create_all (d : database) : database :=
  {| point_data := Some (default empty_table (point_data d));
     polygon_data := Some (default empty_table (polygon_data d)) |}.

(** ** The session of a request *)

(** The instances added and not yet inserted, and the identity map of the
    instances loaded from a table, each with the attribute values it has in
    memory. *)
Record session : Type := Session {
  new_points : list PointData.t;
  points : gmap Z PointData.t;
  new_polygons : list PolygonData.t;
  polygons : gmap Z PolygonData.t
}.

Definition empty_session : session := Session [] ∅ [] ∅.

Record world : Type := World { store : database; sess : session }.

(** A view computes in the state of the database and of its session, and
    may raise. What was done before an exception stays done. *)
Definition View (A : Type) : Type := world -> result A * world.

Definition ret {A : Type} (a : A) : View A := fun w => (Return a, w).
Definition bind {A B : Type} (m : View A) (k : A -> View B) : View B :=
  fun w => match m w with
           | (Return a, w') => k a w'
           | (Raise e, w') => (Raise e, w')
           end.
Definition lift {A : Type} (r : result A) : View A := fun w => (r, w).

#[export] Instance View_ret : MRet View := @ret.
#[export] Instance View_bind : MBind View := fun A B k m => bind m k.

(** ** Queries, attribute assignment and commit *)

(** The integer a float equals, if it equals one. *)
Definition int_of_float (f : float) : option Z :=
  match FloatOps.Prim2SF f with
  | SpecFloat.S754_zero _ => Some 0%Z
  | SpecFloat.S754_finite neg m e =>
      let sign (x : Z) := if neg then (- x)%Z else x in
      if (0 <=? e)%Z then Some (sign (Z.pos m * 2 ^ e)%Z)
      else if (Z.pos m mod 2 ^ (- e) =? 0)%Z then Some (sign (Z.pos m / 2 ^ (- e))%Z)
      else None
  | _ => None
  end.

(** The integer a string of decimal digits writes. *)
Definition int_of_digits (s : string) : option Z :=
  match read_digits 0 0 (String.list_ascii_of_string s) with
  | (n, count, []) => if (count =? 0)%Z then None else Some n
  | _ => None
  end.

(** What [Model.query.get(ident)] asks the table: nothing at all, for the
    row under a key, or for a row that cannot be there. *)
Inductive lookup : Type :=
  | NoQuery
  | Query (key : option Z).

(** The value of the primary key in an identifier.  None asks nothing.  The
    key column compares numbers: an int is its own key, a bool is the int it
    is, a float or a string of digits is the integer it equals or writes,
    and any other float or string equals no key.  Lists and dicts cannot be
    bound to the column. *)
Definition key_value (v : json) : result lookup :=
  match v with
  | JNull => Return NoQuery
  | JInt i => Return (Query (Some i))
  | JBool b => Return (Query (Some (Z.b2z b)))
  | JFloat f => Return (Query (int_of_float f))
  | JStr s => Return (Query (int_of_digits s))
  | JArr _ | JObj _ => Raise DataError
  end.

(** The identifier of [Model.query.get(ident)]: the value of the key, a
    list that holds just that, or a dict that gives just that under the
    name of the key column. *)
Definition primary_key (ident : json) : result lookup :=
  match ident with
  | JArr [v] => key_value v
  | JArr _ => Raise InvalidRequestError
  | JObj [(k, v)] => if String.eqb k "id" then key_value v else Raise InvalidRequestError
  | JObj _ => Raise InvalidRequestError
  | v => key_value v
  end.

(** [Model.query.get(ident)] on one table: the instance with that primary
    key, from the identity map when it was loaded before and from the table
    otherwise, or None when there is no such row. *)
Definition query_get {A : Type} (tbl : option (table A)) (loaded : gmap Z A)
    (ident : json) : result (option (Z * A) * gmap Z A) :=
  match primary_key ident with
  | Raise e => Raise e
  | Return NoQuery => Return (None, loaded)
  | Return (Query key) =>
      match tbl with
      | None => Raise ProgrammingError
      | Some t =>
          match key with
          | None => Return (None, loaded)
          | Some i =>
              match loaded !! i with
              | Some a => Return (Some (i, a), loaded)
              | None =>
                  match rows t !! i with
                  | Some a => Return (Some (i, a), <[i := a]> loaded)
                  | None => Return (None, loaded)
                  end
              end
          end
      end
  end.

Definition PointData_query_get (ident : json) : View (option (Z * PointData.t)) :=
  fun w =>
    match query_get (point_data (store w)) (points (sess w)) ident with
    | Return (r, loaded) =>
        (Return r,
         World (store w)
               (Session (new_points (sess w)) loaded
                        (new_polygons (sess w)) (polygons (sess w))))
    | Raise e => (Raise e, w)
    end.

Definition PolygonData_query_get (ident : json) : View (option (Z * PolygonData.t)) :=
  fun w =>
    match query_get (polygon_data (store w)) (polygons (sess w)) ident with
    | Return (r, loaded) =>
        (Return r,
         World (store w)
               (Session (new_points (sess w)) (points (sess w))
                        (new_polygons (sess w)) loaded))
    | Raise e => (Raise e, w)
    end.

(** [db.session.add(point)] and [db.session.add(polygon)]. *)
Definition session_add_point (p : PointData.t) : View unit :=
  fun w =>
    (Return tt,
     World (store w)
           (Session (new_points (sess w) ++ [p])%list (points (sess w))
                    (new_polygons (sess w)) (polygons (sess w)))).

Definition session_add_polygon (p : PolygonData.t) : View unit :=
  fun w =>
    (Return tt,
     World (store w)
           (Session (new_points (sess w)) (points (sess w))
                    (new_polygons (sess w) ++ [p])%list (polygons (sess w)))).

(** [point.attr = v] on the loaded instance with key [i]: the instance in
    the identity map changes, the table does not. *)
Definition point_setattr (i : Z) (f : PointData.t -> PointData.t) : View unit :=
  fun w =>
    (Return tt,
     World (store w)
           (Session (new_points (sess w)) (alter f i (points (sess w)))
                    (new_polygons (sess w)) (polygons (sess w)))).

Definition polygon_setattr (i : Z) (f : PolygonData.t -> PolygonData.t) : View unit :=
  fun w =>
    (Return tt,
     World (store w)
           (Session (new_points (sess w)) (points (sess w))
                    (new_polygons (sess w)) (alter f i (polygons (sess w))))).

(** The rows the columns hold for a list of instances, or the first
    refusal. *)
Fixpoint bind_all {A K : Type} (bind : A -> result A) (l : list (K * A))
    : result (list (K * A)) :=
  match l with
  | [] => Return []
  | (k, a) :: rest =>
      match bind a with
      | Raise e => Raise e
      | Return a' =>
          match bind_all bind rest with
          | Raise e => Raise e
          | Return rest' => Return ((k, a') :: rest')
          end
      end
  end.

(** The flush of one table: nothing is sent when the session holds nothing
    for it; otherwise every pending instance is bound to the columns, the
    new ones are inserted under fresh keys and the loaded ones overwrite
    their rows, each with the values the columns hold for it.  One refused
    value fails the whole flush. *)
Definition flush_table {A : Type} (bind : A -> result A)
    (new : list A) (loaded : gmap Z A) (tbl : option (table A))
    : result (option (table A)) :=
  match new, map_to_list loaded with
  | [], [] => Return tbl
  | _, _ =>
      match tbl with
      | None => Raise ProgrammingError
      | Some t =>
          match bind_all bind ((fun a => (tt, a)) <$> new) with
          | Raise e => Raise e
          | Return inserts =>
              match bind_all bind (map_to_list loaded) with
              | Raise e => Raise e
              | Return updates =>
                  let t' := foldl insert_row t (snd <$> inserts) in
                  Return (Some (Table (list_to_map updates ∪ rows t') (auto_increment t')))
              end
          end
      end
  end.

Definition flush (d : database) (s : session) : result database :=
  match flush_table PointData.bind (new_points s) (points s) (point_data d) with
  | Raise e => Raise e
  | Return pt =>
      match flush_table PolygonData.bind (new_polygons s) (polygons s) (polygon_data d) with
      | Raise e => Raise e
      | Return pg => Return (Database pt pg)
      end
  end.

(** [db.session.commit()]: the flush in one transaction.  When it fails
    nothing of it reaches the tables. *)
Definition session_commit : View unit :=
  fun w =>
    match flush (store w) (sess w) with
    | Return d => (Return tt, World d empty_session)
    | Raise e => (Raise e, w)
    end.

(** ** Responses and views *)

(** The methods of a request.  HEAD and OPTIONS, which the framework
    answers by itself, are left out. *)
Inductive http_method : Type := GET | POST | PUT | DELETE | PATCH.

(** What a view returns, [jsonify(...)] with a status (200 when the view
    gives none), and the error page the framework answers on its own. *)
Inductive response : Type :=
  | Response (body : json) (status : Z)
  | HTTPException (status : Z).

(** The branches of a create-or-update view either return a response early
    ([Some]) or fall through to the commit ([None]). *)
Definition handle_point (method : http_method) (data : json) : View response :=
  early ←
    match method with
    | POST =>
        name ← lift (getitem data "name");
        latitude ← lift (getitem data "latitude");
        longitude ← lift (getitem data "longitude");
        session_add_point (PointData.new name latitude longitude);;
        ret None
    | PUT =>
        ident ← lift (getitem data "id");
        point ← PointData_query_get ident;
        match point with
        | None =>
            ret (Some (Response (jsonify [("error", JStr "Point not found")]) 404))
        | Some (i, _) =>
            name ← lift (getitem data "name");
            point_setattr i (PointData.set_name name);;
            latitude ← lift (getitem data "latitude");
            point_setattr i (PointData.set_latitude latitude);;
            longitude ← lift (getitem data "longitude");
            point_setattr i (PointData.set_longitude longitude);;
            ret None
        end
    | _ => ret None
    end;
  match early with
  | Some r => ret r
  | None =>
      session_commit;;
      ret (Response (jsonify [("message", JStr "Point saved successfully")]) 200)
  end.

Definition get_point (point_id : Z) : View response :=
  point ← PointData_query_get (JInt point_id);
  match point with
  | None => ret (Response (jsonify [("error", JStr "Point not found")]) 404)
  | Some (i, p) =>
      ret (Response (jsonify [("id", JInt i);
                              ("name", PointData.name p);
                              ("latitude", PointData.latitude p);
                              ("longitude", PointData.longitude p)]) 200)
  end.

Definition handle_polygon (method : http_method) (data : json) : View response :=
  early ←
    match method with
    | POST =>
        name ← lift (getitem data "name");
        coordinates ← lift (getitem data "coordinates");
        session_add_polygon (PolygonData.new name coordinates);;
        ret None
    | PUT =>
        ident ← lift (getitem data "id");
        polygon ← PolygonData_query_get ident;
        match polygon with
        | None =>
            ret (Some (Response (jsonify [("error", JStr "Polygon not found")]) 404))
        | Some (i, _) =>
            name ← lift (getitem data "name");
            polygon_setattr i (PolygonData.set_name name);;
            coordinates ← lift (getitem data "coordinates");
            polygon_setattr i (PolygonData.set_coordinates coordinates);;
            ret None
        end
    | _ => ret None
    end;
  match early with
  | Some r => ret r
  | None =>
      session_commit;;
      ret (Response (jsonify [("message", JStr "Polygon saved successfully")]) 200)
  end.

Definition get_polygon (polygon_id : Z) : View response :=
  polygon ← PolygonData_query_get (JInt polygon_id);
  match polygon with
  | None => ret (Response (jsonify [("error", JStr "Polygon not found")]) 404)
  | Some (i, p) =>
      ret (Response (jsonify [("id", JInt i);
                              ("name", PolygonData.name p);
                              ("coordinates", PolygonData.coordinates p)]) 200)
  end.

(** ** Routing *)

(** The URL of a request once matched against the four rules. The [int]
    converter of [/point/<int:point_id>] takes digits only, so the key in a
    matched URL is a natural number. *)
Inductive url : Type :=
  | url_point                        (* /point *)
  | url_point_id (point_id : N)      (* /point/<int:point_id> *)
  | url_polygon                      (* /polygon *)
  | url_polygon_id (polygon_id : N)  (* /polygon/<int:polygon_id> *)
  | url_unknown.                     (* any other URL *)

(** A request; [body] is what [request.json] evaluates to (a request whose
    body is not JSON is answered by the framework before the view reads a
    field, and is not a request of this model). *)
Record request : Type := Request {
  method : http_method;
  path : url;
  body : json
}.

(** The view a request is routed to, with the methods each rule lists; no
    rule gives 404 and a rule without the method gives 405. *)
Definition dispatch_request (r : request) : View response :=
  match path r, method r with
  | url_point, (POST | PUT) => handle_point (method r) (body r)
  | url_point_id point_id, GET => get_point (Z.of_N point_id)
  | url_polygon, (POST | PUT) => handle_polygon (method r) (body r)
  | url_polygon_id polygon_id, GET => get_polygon (Z.of_N polygon_id)
  | url_unknown, _ => ret (HTTPException 404)
  | _, _ => ret (HTTPException 405)
  end.

(** ** The application *)

(** The state of a running process: the global flag and the database it is
    connected to. *)
Record app : Type := App {
  tables_initialized : bool;
  db : database
}.

(** What a request does besides answering. *)
Inductive effect : Type :=
  | CreateAll.     (* one call of db.create_all() *)

(** The [before_request] hook. *)
Definition create_tables (s : app) : app * list effect :=
  if negb (tables_initialized s)
  then (App true (create_all (db s)), [CreateAll])
  else (s, []).

(** One request: the hook runs first, whatever the URL; the view runs in a
    session of its own, which is removed when the request ends, with
    whatever it held uncommitted.  An exception that escapes the view is the
    result of the request (the framework answers 500). *)
Definition run_view {A : Type} (v : View A) (d : database) : result A * database :=
  let (res, w) := v (World d empty_session) in (res, store w).

Definition full_dispatch_request (s : app) (r : request)
    : app * list effect * result response :=
  let (s1, trace) := create_tables s in
  let (res, d) := run_view (dispatch_request r) (db s1) in
  (App (tables_initialized s1) d, trace, res).

Definition state_after (s : app) (r : request) : app :=
  (full_dispatch_request s r).1.1.
Definition effects_of (s : app) (r : request) : list effect :=
  (full_dispatch_request s r).1.2.
Definition outcome (s : app) (r : request) : result response :=
  (full_dispatch_request s r).2.

(** A run of one process over a sequence of requests: the state it ends in
    and the effects of each request in turn. *)
Fixpoint run (s : app) (rs : list request) : app * list (list effect) :=
  match rs with
  | [] => (s, [])
  | r :: rest =>
      let (s', traces) := run (state_after s r) rest in
      (s', effects_of s r :: traces)
  end.

(** The database outlives the process: a restart resets the flag only. *)
Definition restart (s : app) : app := App false (db s).

(** A process started on a database without tables. *)
Definition pristine : app := App false (Database None None).

(** The state a request leaves behind when its view changes nothing: the
    hook has run and that is all. *)
Definition bootstrapped (s : app) : app := (create_tables s).1.

(** [reaches s0 s]: the service gets from [s0] to [s] by requests and
    restarts.  The states the service can be in are those it reaches from
    the pristine one. *)
Inductive reaches (s0 : app) : app -> Prop :=
  | reaches_here : reaches s0 s0
  | reaches_request s r : reaches s0 s -> reaches s0 (state_after s r)
  | reaches_restart s : reaches s0 s -> reaches s0 (restart s).

Definition reachable (s : app) : Prop := reaches pristine s.

(** The rows of a table, none when the table does not exist. *)
Definition rows_of {A : Type} (tbl : option (table A)) : gmap Z A :=
  match tbl with
  | Some t => rows t
  | None => ∅
  end.

Definition point_rows (s : app) : gmap Z PointData.t := rows_of (point_data (db s)).
Definition polygon_rows (s : app) : gmap Z PolygonData.t := rows_of (polygon_data (db s)).

(** The four answers of the create-or-update views. *)
Definition point_saved : response :=
  Response (jsonify [("message", JStr "Point saved successfully")]) 200.
Definition point_not_found : response :=
  Response (jsonify [("error", JStr "Point not found")]) 404.
Definition polygon_saved : response :=
  Response (jsonify [("message", JStr "Polygon saved successfully")]) 200.
Definition polygon_not_found : response :=
  Response (jsonify [("error", JStr "Polygon not found")]) 404.

(** ** Payloads *)

(** The types of Section 3 of the specification: a name is a string of at
    most 100 characters, a latitude or longitude is a number, coordinates
    are a string. *)
Definition is_name (v : json) : bool :=
  match v with
  | JStr s => (String.length s <=? 100)%nat
  | _ => false
  end.

Definition is_number (v : json) : bool :=
  match v with
  | JInt _ | JFloat _ => true
  | _ => false
  end.

Definition is_text (v : json) : bool :=
  match v with
  | JStr _ => true
  | _ => false
  end.

Definition well_typed_point (p : PointData.t) : bool :=
  is_name (PointData.name p) && is_number (PointData.latitude p)
  && is_number (PointData.longitude p).

Definition well_typed_polygon (p : PolygonData.t) : bool :=
  is_name (PolygonData.name p) && is_text (PolygonData.coordinates p).


(** A number a Float column has a finite value for: a finite float, or an
    int below the bound from which [float] overflows. *)
Definition finite_number (v : json) : bool :=
  match v with
  | JFloat f => is_finite f
  | JInt z => (Z.abs z <? 2 ^ 1024 - 2 ^ 970)%Z
  | _ => false
  end.

(** A payload for a point: a name, and numbers a float can hold. *)
Definition valid_point (p : PointData.t) : bool :=
  is_name (PointData.name p) && finite_number (PointData.latitude p)
  && finite_number (PointData.longitude p).





(** ** Invariants of the database *)

(** Every key of a table lies between 1 and the counter, and every row
    holds values of the types of its columns. *)
Definition table_ok {A : Type} (ok : A -> bool) (t : table A) : Prop :=
  (1 <= auto_increment t)%Z /\
  forall i a, rows t !! i = Some a ->
    (1 <= i < auto_increment t)%Z /\ ok a = true.

Definition db_ok (d : database) : Prop :=
  (forall t, point_data d = Some t -> table_ok well_typed_point t) /\
  (forall t, polygon_data d = Some t -> table_ok well_typed_polygon t).

Definition tables_exist (d : database) : Prop :=
  is_Some (point_data d) /\ is_Some (polygon_data d).

(** The flag is set only when the tables exist. *)
Definition app_ok (s : app) : Prop :=
  db_ok (db s) /\ (tables_initialized s = true -> tables_exist (db s)).

(** The ways a view changes the database: not at all, by one row inserted
    under the next key, or by one existing row overwritten, in either
    table; the row written has the types of its columns. *)
Inductive db_change (d : database) : database -> Prop :=
  | change_none : db_change d d
  | change_point_insert t p :
      point_data d = Some t -> well_typed_point p = true ->
      db_change d (Database (Some (insert_row t p)) (polygon_data d))
  | change_point_update t i p0 p :
      point_data d = Some t -> rows t !! i = Some p0 -> well_typed_point p = true ->
      db_change d (Database (Some (Table (<[i := p]> (rows t)) (auto_increment t)))
                            (polygon_data d))
  | change_polygon_insert t p :
      polygon_data d = Some t -> well_typed_polygon p = true ->
      db_change d (Database (point_data d) (Some (insert_row t p)))
  | change_polygon_update t i p0 p :
      polygon_data d = Some t -> rows t !! i = Some p0 -> well_typed_polygon p = true ->
      db_change d (Database (point_data d)
                            (Some (Table (<[i := p]> (rows t)) (auto_increment t)))).


Definition polygon_fields (data : json) (p : PolygonData.t) : Prop :=
  getitem data "name" = Return (PolygonData.name p) /\
  getitem data "coordinates" = Return (PolygonData.coordinates p).

(** The body [data] has no member [k] to give: [data[k]] raises. *)
Definition lacks (data : json) (k : string) : Prop :=
  forall v, getitem data k <> Return v.

(** A row with no field left empty. *)
Definition populated (p : PointData.t) : Prop :=
  PointData.name p <> JNull /\ PointData.latitude p <> JNull /\
  PointData.longitude p <> JNull.

(** What GET answers for a row. *)
Definition point_json (i : Z) (p : PointData.t) : json :=
  jsonify [("id", JInt i); ("name", PointData.name p);
           ("latitude", PointData.latitude p); ("longitude", PointData.longitude p)].

Definition polygon_json (i : Z) (p : PolygonData.t) : json :=
  jsonify [("id", JInt i); ("name", PolygonData.name p);
           ("coordinates", PolygonData.coordinates p)].

(** ** Example requests and states *)

(** The payload of the example scenario of Section 8, an update of the row
    it creates, an update that lacks the latitude, one whose latitude is
    not a number, and a polygon whose coordinates are not JSON. *)
Definition example_point : json :=
  JObj [("name", JStr "A"); ("latitude", JFloat 1.0); ("longitude", JFloat 2.0)].

Definition example_update : json :=
  JObj [("id", JInt 1); ("name", JStr "B"); ("latitude", JFloat 3.0);
        ("longitude", JInt 4)].

Definition example_partial_update : json :=
  JObj [("id", JInt 1); ("name", JStr "B"); ("longitude", JFloat 4.0)].

Definition example_invalid_update : json :=
  JObj [("id", JInt 1); ("name", JStr "B"); ("latitude", JStr "north");
        ("longitude", JFloat 4.0)].

Definition example_absent_update : json :=
  JObj [("id", JInt 999); ("name", JStr "x"); ("latitude", JInt 0);
        ("longitude", JInt 0)].


Definition example_polygon : json :=
  JObj [("id", JInt 1); ("name", JStr "P"); ("coordinates", JStr "[[[0, 0], [1")].

(** The service after the POST of the example point, and after the POST of
    the example polygon on top of it. *)
Definition one_point : app :=
  state_after pristine (Request POST url_point example_point).

Definition one_of_each : app :=
  state_after one_point (Request POST url_polygon example_polygon).

(** ** Requests that can write *)

(** The requests the routing hands to a create-or-update view. *)
Definition is_write (r : request) : bool :=
  match path r, method r with
  | url_point, (POST | PUT) => true
  | url_polygon, (POST | PUT) => true
  | _, _ => false
  end.

(** The requests that concern the point table, and the polygon table. *)
Definition on_points (r : request) : bool :=
  match path r with
  | url_point | url_point_id _ => true
  | _ => false
  end.

Definition on_polygons (r : request) : bool :=
  match path r with
  | url_polygon | url_polygon_id _ => true
  | _ => false
  end.

(** ** The hook when requests overlap *)

(** The flag is a global of the process and the hook takes no lock, so the
    workers of one process that serve requests at the same time run the
    lines of [create_tables] interleaved.  A worker is before the test of
    the flag, before the call of [db.create_all()], before the assignment
    of the flag, or past the hook and on its way to the view. *)
Inductive hook_pc : Type :=
  | at_test
  | at_create_all
  | at_set_flag
  | at_view.

(** The line a worker stands at, run on the state of the process.  The call
    of [db.create_all()] is one step; what the engine does when two calls
    overlap is no part of it. *)
Definition hook_step (s : app) (pc : hook_pc) : app * list effect * hook_pc :=
  match pc with
  | at_test =>
      if negb (tables_initialized s) then (s, [], at_create_all) else (s, [], at_view)
  | at_create_all =>
      (App (tables_initialized s) (create_all (db s)), [CreateAll], at_set_flag)
  | at_set_flag => (App true (db s), [], at_view)
  | at_view => (s, [], at_view)
  end.

(** A process with its workers, and the calls of [db.create_all()] so far. *)
Record server : Type := Server {
  process : app;
  log : list effect;
  workers : list hook_pc
}.

(** Worker [i] runs its next line. *)
Definition worker_step (sv : server) (i : nat) : server :=
  match workers sv !! i with
  | None => sv
  | Some pc =>
      let '(s', t, pc') := hook_step (process sv) pc in
      Server s' (log sv ++ t)%list (<[i := pc']> (workers sv))
  end.

(** A schedule names the worker that moves, step after step. *)
Definition interleave (sv : server) (schedule : list nat) : server :=
  foldl worker_step sv schedule.

(** [n] requests arrive at a process in state [s]. *)
Definition arrivals (s : app) (n : nat) : server :=
  Server s [] (replicate n at_test).

(** The schedule that lets each of the workers [k], ..., [k + n - 1] run its
    three lines before the next starts, and the one that lets all of them
    run their first line, then all their second, then all their third. *)
Definition one_by_one (k n : nat) : list nat :=
  concat ((fun i => [i; i; i]) <$> seq k n).

Definition in_lockstep (n : nat) : list nat :=
  (seq 0 n ++ seq 0 n ++ seq 0 n)%list.

(** The workers that have not called [db.create_all()] and may still. *)
Definition may_still_call (pc : hook_pc) : nat :=
  match pc with
  | at_test | at_create_all => 1
  | _ => 0
  end.

Definition calls_to_come (pcs : list hook_pc) : nat :=
  foldr (fun pc k => may_still_call pc + k) 0 pcs.

(** ** The call of [db.create_all()] when requests overlap *)

(** Seen from the engine [db.create_all()] is not one step: it asks which
    of the tables exist, then issues CREATE TABLE for each table it found
    missing, and the engine refuses to create a table that exists.  With
    the call taken apart so, a worker is before the test of the flag, in
    [db.create_all()] before it asks, in [db.create_all()] before the
    CREATE TABLE statements for the tables it found missing, before the
    assignment of the flag, past the hook, or out of the hook by an
    exception, which fails its request. *)
Inductive ddl_pc : Type :=
  | ddl_test
  | ddl_look
  | ddl_create (points polygons : bool)
  | ddl_set_flag
  | ddl_view
  | ddl_raised (e : exn).

Definition is_missing {A : Type} (tbl : option (table A)) : bool :=
  match tbl with
  | None => true
  | Some _ => false
  end.

(** CREATE TABLE for a table found missing. *)
Definition create_table {A : Type} (missing : bool) (tbl : option (table A))
    : result (option (table A)) :=
  if missing
  then match tbl with
       | None => Return (Some empty_table)
       | Some _ => Raise OperationalError
       end
  else Return tbl.

Definition ddl_step (s : app) (pc : ddl_pc) : app * ddl_pc :=
  match pc with
  | ddl_test => if negb (tables_initialized s) then (s, ddl_look) else (s, ddl_view)
  | ddl_look =>
      (s, ddl_create (is_missing (point_data (db s))) (is_missing (polygon_data (db s))))
  | ddl_create points polygons =>
      match create_table points (point_data (db s)) with
      | Raise e => (s, ddl_raised e)
      | Return pt =>
          match create_table polygons (polygon_data (db s)) with
          | Raise e =>
              (App (tables_initialized s) (Database pt (polygon_data (db s))), ddl_raised e)
          | Return pg => (App (tables_initialized s) (Database pt pg), ddl_set_flag)
          end
      end
  | ddl_set_flag => (App true (db s), ddl_view)
  | ddl_view => (s, ddl_view)
  | ddl_raised e => (s, ddl_raised e)
  end.

(** Worker [i] of a process takes its next step. *)
Definition ddl_worker_step (sv : app * list ddl_pc) (i : nat) : app * list ddl_pc :=
  match sv.2 !! i with
  | None => sv
  | Some pc =>
      let (s', pc') := ddl_step sv.1 pc in
      (s', <[i := pc']> sv.2)
  end.

Definition ddl_interleave (sv : app * list ddl_pc) (schedule : list nat)
    : app * list ddl_pc :=
  foldl ddl_worker_step sv schedule.

Definition ddl_arrivals (s : app) (n : nat) : app * list ddl_pc :=
  (s, replicate n ddl_test).

(** The schedule in which each of [n] workers takes a step before any
    takes its next, four times over; for two workers they take their steps
    in turn. *)
Definition all_in_turn (n : nat) : list nat :=
  (seq 0 n ++ seq 0 n ++ seq 0 n ++ seq 0 n)%list.

Definition two_in_turn : list nat := [0; 1; 0; 1; 0; 1; 0; 1].

(** * Properties *)

(** ** Examples *)

Example post_then_get :
  let s1 := state_after pristine (Request POST url_point example_point) in
  outcome pristine (Request POST url_point example_point)
    = Return (Response (JObj [("message", JStr "Point saved successfully")]) 200)
  /\ outcome s1 (Request GET (url_point_id 1) JNull)
    = Return (Response (JObj [("id", JInt 1); ("name", JStr "A");
                              ("latitude", JFloat 1.0); ("longitude", JFloat 2.0)]) 200)
  /\ outcome s1 (Request PUT url_point
        (JObj [("id", JInt 999); ("name", JStr "x");
               ("latitude", JInt 0); ("longitude", JInt 0)]))
    = Return (Response (JObj [("error", JStr "Point not found")]) 404).
Proof. vm_compute. done. Qed.

(** What the columns and the key make of values of another type: a
    latitude written as a string is stored as the number it writes and an
    int as its float; an id written as a string of digits or inside a list
    is the key it gives. *)
Example values_of_another_type :
  let post := Request POST url_point
    (JObj [("name", JStr "A"); ("latitude", JStr "12.5"); ("longitude", JInt 4)]) in
  let put_by_string := Request PUT url_point
    (JObj [("id", JStr "999"); ("name", JStr "B"); ("latitude", JFloat 3.0);
           ("longitude", JFloat 4.0)]) in
  let put_by_list := Request PUT url_point
    (JObj [("id", JArr [JInt 1]); ("name", JStr "B"); ("latitude", JFloat 3.0);
           ("longitude", JInt 4)]) in
  outcome pristine post = Return point_saved
  /\ point_rows (state_after pristine post) !! 1%Z
     = Some (PointData.new (JStr "A") (JFloat 12.5) (JFloat 4.0))
  /\ outcome one_point put_by_string = Return point_not_found
  /\ outcome one_point put_by_list = Return point_saved
  /\ point_rows (state_after one_point put_by_list) !! 1%Z
     = Some (PointData.new (JStr "B") (JFloat 3.0) (JFloat 4.0)).
Proof. vm_compute. done. Qed.

(** ** The flush of a session that holds one instance *)

Arguments flush_table : simpl never.
Arguments query_get : simpl never.
Arguments PointData.bind : simpl never.
Arguments PolygonData.bind : simpl never.
Arguments primary_key : simpl never.
Arguments python_float : simpl never.
Arguments text_of : simpl never.
Arguments float_value : simpl never.

Lemma flush_table_nothing {A : Type} (bind : A -> result A) (tbl : option (table A)) :
  flush_table bind [] ∅ tbl = Return tbl.
Proof. unfold flush_table. by rewrite map_to_list_empty. Qed.

Lemma flush_table_insert {A : Type} (bind : A -> result A) (a : A) (t : table A) :
  flush_table bind [a] ∅ (Some t) =
    match bind a with
    | Raise e => Raise e
    | Return a' => Return (Some (insert_row t a'))
    end.
Proof.
  unfold flush_table. rewrite map_to_list_empty. simpl.
  destruct (bind a); [| done]. simpl.
  by rewrite (left_id_L ∅ (∪)).
Qed.

Lemma flush_table_update {A : Type} (bind : A -> result A) (i : Z) (a : A) (t : table A) :
  flush_table bind [] {[i := a]} (Some t) =
    match bind a with
    | Raise e => Raise e
    | Return a' => Return (Some (Table (<[i := a']> (rows t)) (auto_increment t)))
    end.
Proof.
  unfold flush_table. rewrite map_to_list_singleton. simpl.
  destruct (bind a); [| done]. simpl.
  by rewrite insert_empty, insert_union_singleton_l.
Qed.

Lemma alter_loaded {A : Type} (f : A -> A) (i : Z) (a : A) :
  alter f i ({[i := a]} : gmap Z A) = {[i := f a]}.
Proof. apply alter_singleton_eq. Qed.

Lemma query_get_found {A : Type} (tbl : option (table A)) (ident : json)
    (i : Z) (a : A) (loaded : gmap Z A) :
  query_get tbl ∅ ident = Return (Some (i, a), loaded) ->
  exists t, tbl = Some t /\ rows t !! i = Some a /\ loaded = {[i := a]} /\
            primary_key ident = Return (Query (Some i)).
Proof.
  unfold query_get. intros H.
  destruct (primary_key ident) as [[| [k|]]|]; try discriminate;
    destruct tbl as [t|]; try discriminate.
  rewrite lookup_empty in H.
  destruct (rows t !! k) as [a'|] eqn:Ha; [| discriminate].
  injection H as -> -> <-. rewrite insert_empty. eauto.
Qed.

Lemma query_get_key {A : Type} (t : table A) (ident : json) (i : Z) :
  primary_key ident = Return (Query (Some i)) ->
  query_get (Some t) ∅ ident =
    match rows t !! i with
    | Some a => Return (Some (i, a), {[i := a]})
    | None => Return (None, ∅)
    end.
Proof.
  intros H. unfold query_get. rewrite H, lookup_empty.
  destruct (rows t !! i); [| done]. by rewrite insert_empty.
Qed.

Lemma query_get_int {A : Type} (t : table A) (i : Z) :
  query_get (Some t) ∅ (JInt i) =
    match rows t !! i with
    | Some a => Return (Some (i, a), {[i := a]})
    | None => Return (None, ∅)
    end.
Proof. by apply query_get_key. Qed.

(** A lookup that raises or finds nothing leaves the session as it was. *)
Lemma query_get_nothing {A : Type} (tbl : option (table A)) (ident : json)
    (loaded : gmap Z A) :
  query_get tbl ∅ ident = Return (None, loaded) -> loaded = ∅.
Proof.
  unfold query_get. intros H.
  destruct (primary_key ident) as [[| [k|]]|]; try discriminate;
    try (by injection H); destruct tbl as [t|]; try discriminate;
    try (by injection H).
  rewrite lookup_empty in H.
  destruct (rows t !! k); [discriminate | by injection H].
Qed.

(** ** What each view does to the database, from a fresh session *)

Ltac unfold_view :=
  unfold run_view, handle_point, get_point, handle_polygon, get_polygon,
    mbind, View_bind, bind, lift, ret, session_add_point, session_add_polygon,
    point_setattr, polygon_setattr, PointData_query_get, PolygonData_query_get,
    session_commit, flush, empty_session; simpl.

Lemma handle_point_POST (data : json) (d : database) :
  run_view (handle_point POST data) d =
    match getitem data "name" with
    | Raise e => (Raise e, d)
    | Return name =>
    match getitem data "latitude" with
    | Raise e => (Raise e, d)
    | Return latitude =>
    match getitem data "longitude" with
    | Raise e => (Raise e, d)
    | Return longitude =>
    match point_data d with
    | None => (Raise ProgrammingError, d)
    | Some t =>
    match PointData.bind (PointData.new name latitude longitude) with
    | Raise e => (Raise e, d)
    | Return row =>
        (Return point_saved, Database (Some (insert_row t row)) (polygon_data d))
    end end end end end.
Proof.
  unfold_view.
  destruct (getitem data "name") as [name|]; [simpl | done].
  destruct (getitem data "latitude") as [latitude|]; [simpl | done].
  destruct (getitem data "longitude") as [longitude|]; [simpl | done].
  destruct (point_data d) as [t|] eqn:Ht.
  - rewrite flush_table_insert.
    destruct (PointData.bind _); [| done].
    by rewrite flush_table_nothing.
  - by unfold flush_table.
Qed.

Lemma handle_point_PUT (data : json) (d : database) :
  run_view (handle_point PUT data) d =
    match getitem data "id" with
    | Raise e => (Raise e, d)
    | Return ident =>
    match query_get (point_data d) ∅ ident with
    | Raise e => (Raise e, d)
    | Return (None, _) => (Return point_not_found, d)
    | Return (Some (i, _), _) =>
    match getitem data "name" with
    | Raise e => (Raise e, d)
    | Return name =>
    match getitem data "latitude" with
    | Raise e => (Raise e, d)
    | Return latitude =>
    match getitem data "longitude" with
    | Raise e => (Raise e, d)
    | Return longitude =>
    match point_data d with
    | None => (Raise ProgrammingError, d)
    | Some t =>
    match PointData.bind (PointData.new name latitude longitude) with
    | Raise e => (Raise e, d)
    | Return row =>
        (Return point_saved,
         Database (Some (Table (<[i := row]> (rows t)) (auto_increment t)))
                  (polygon_data d))
    end end end end end end end.
Proof.
  unfold_view.
  destruct (getitem data "id") as [ident|]; [simpl | done].
  destruct (query_get (point_data d) ∅ ident) as [[[[i p]|] loaded]|] eqn:Hq;
    simpl; [| done | done].
  apply query_get_found in Hq as (t & Ht & Hi & -> & _).
  destruct (getitem data "name") as [name|]; [simpl | done].
  destruct (getitem data "latitude") as [latitude|]; [simpl | done].
  destruct (getitem data "longitude") as [longitude|]; [simpl | done].
  rewrite !alter_loaded.
  rewrite Ht, flush_table_update. simpl.
  destruct (PointData.bind _); [| done].
  by rewrite flush_table_nothing.
Qed.

Lemma get_point_run (point_id : Z) (d : database) :
  run_view (get_point point_id) d =
    match point_data d with
    | None => (Raise ProgrammingError, d)
    | Some t =>
        match rows t !! point_id with
        | None => (Return point_not_found, d)
        | Some p =>
            (Return (Response (jsonify [("id", JInt point_id);
                                        ("name", PointData.name p);
                                        ("latitude", PointData.latitude p);
                                        ("longitude", PointData.longitude p)]) 200), d)
        end
    end.
Proof.
  unfold_view. unfold query_get. simpl.
  destruct (point_data d) as [t|]; [| done].
  rewrite lookup_empty.
  by destruct (rows t !! point_id).
Qed.

Lemma handle_polygon_POST (data : json) (d : database) :
  run_view (handle_polygon POST data) d =
    match getitem data "name" with
    | Raise e => (Raise e, d)
    | Return name =>
    match getitem data "coordinates" with
    | Raise e => (Raise e, d)
    | Return coordinates =>
    match polygon_data d with
    | None => (Raise ProgrammingError, d)
    | Some t =>
    match PolygonData.bind (PolygonData.new name coordinates) with
    | Raise e => (Raise e, d)
    | Return row =>
        (Return polygon_saved, Database (point_data d) (Some (insert_row t row)))
    end end end end.
Proof.
  unfold_view.
  destruct (getitem data "name") as [name|]; [simpl | done].
  destruct (getitem data "coordinates") as [coordinates|]; [simpl | done].
  rewrite flush_table_nothing.
  destruct (polygon_data d) as [t|] eqn:Ht.
  - rewrite flush_table_insert.
    by destruct (PolygonData.bind _).
  - by unfold flush_table.
Qed.

Lemma handle_polygon_PUT (data : json) (d : database) :
  run_view (handle_polygon PUT data) d =
    match getitem data "id" with
    | Raise e => (Raise e, d)
    | Return ident =>
    match query_get (polygon_data d) ∅ ident with
    | Raise e => (Raise e, d)
    | Return (None, _) => (Return polygon_not_found, d)
    | Return (Some (i, _), _) =>
    match getitem data "name" with
    | Raise e => (Raise e, d)
    | Return name =>
    match getitem data "coordinates" with
    | Raise e => (Raise e, d)
    | Return coordinates =>
    match polygon_data d with
    | None => (Raise ProgrammingError, d)
    | Some t =>
    match PolygonData.bind (PolygonData.new name coordinates) with
    | Raise e => (Raise e, d)
    | Return row =>
        (Return polygon_saved,
         Database (point_data d)
                  (Some (Table (<[i := row]> (rows t)) (auto_increment t))))
    end end end end end end.
Proof.
  unfold_view.
  destruct (getitem data "id") as [ident|]; [simpl | done].
  destruct (query_get (polygon_data d) ∅ ident) as [[[[i p]|] loaded]|] eqn:Hq;
    simpl; [| done | done].
  apply query_get_found in Hq as (t & Ht & Hi & -> & _).
  destruct (getitem data "name") as [name|]; [simpl | done].
  destruct (getitem data "coordinates") as [coordinates|]; [simpl | done].
  rewrite !alter_loaded.
  rewrite flush_table_nothing, Ht, flush_table_update. simpl.
  by destruct (PolygonData.bind _).
Qed.

Lemma get_polygon_run (polygon_id : Z) (d : database) :
  run_view (get_polygon polygon_id) d =
    match polygon_data d with
    | None => (Raise ProgrammingError, d)
    | Some t =>
        match rows t !! polygon_id with
        | None => (Return polygon_not_found, d)
        | Some p =>
            (Return (Response (jsonify [("id", JInt polygon_id);
                                        ("name", PolygonData.name p);
                                        ("coordinates", PolygonData.coordinates p)]) 200), d)
        end
    end.
Proof.
  unfold_view. unfold query_get. simpl.
  destruct (polygon_data d) as [t|]; [| done].
  rewrite lookup_empty.
  by destruct (rows t !! polygon_id).
Qed.

Lemma run_view_ret {A : Type} (a : A) (d : database) : run_view (ret a) d = (Return a, d).
Proof. done. Qed.


(** ** What the columns hold *)

Lemma float_value_float (v : json) (f : float) :
  float_value v = Some f -> python_float v = Some f.
Proof.
  unfold float_value. destruct v; try done;
    (destruct (python_float _) as [x|]; [| discriminate];
     destruct (is_finite x); [done | discriminate]).
Qed.

Lemma bind_param_float (v w : json) :
  bind_param db_Float v = Return w -> exists f, python_float v = Some f /\ w = JFloat f.
Proof.
  unfold bind_param.
  destruct v; try discriminate;
    (destruct (float_value _) as [x|] eqn:Hx; [| discriminate]; intros [= <-];
     apply float_value_float in Hx; eauto).
Qed.

Lemma bind_param_string (n : nat) (v w : json) :
  bind_param (db_String n) v = Return w ->
  exists s, text_of v = Some s /\ w = JStr s /\ (String.length s <=? n)%nat = true.
Proof.
  unfold bind_param.
  destruct v; try discriminate;
    (destruct (text_of _) as [x|]; [| discriminate];
     destruct (String.length x <=? n)%nat eqn:Hs; [| discriminate];
     intros [= <-]; eauto).
Qed.

Lemma bind_param_text (v w : json) :
  bind_param db_Text v = Return w -> exists s, text_of v = Some s /\ w = JStr s.
Proof.
  unfold bind_param.
  destruct v; try discriminate;
    (destruct (text_of _) as [x|]; [| discriminate]; intros [= <-]; eauto).
Qed.

(** A row the columns hold has the types of the data model. *)
Lemma point_bind_stored (p q : PointData.t) :
  PointData.bind p = Return q -> well_typed_point q = true.
Proof.
  unfold PointData.bind.
  destruct (bind_param (db_String 100) _) as [n|] eqn:Hn; [| discriminate].
  destruct (bind_param db_Float (PointData.latitude p)) as [la|] eqn:Hla; [| discriminate].
  destruct (bind_param db_Float (PointData.longitude p)) as [lo|] eqn:Hlo; [| discriminate].
  intros [= <-].
  apply bind_param_string in Hn as (s & _ & -> & Hlen).
  apply bind_param_float in Hla as (f1 & _ & ->).
  apply bind_param_float in Hlo as (f2 & _ & ->).
  unfold well_typed_point. simpl. by rewrite Hlen.
Qed.

Lemma polygon_bind_stored (p q : PolygonData.t) :
  PolygonData.bind p = Return q -> well_typed_polygon q = true.
Proof.
  unfold PolygonData.bind.
  destruct (bind_param (db_String 100) _) as [n|] eqn:Hn; [| discriminate].
  destruct (bind_param db_Text _) as [c|] eqn:Hc; [| discriminate].
  intros [= <-].
  apply bind_param_string in Hn as (s & _ & -> & Hlen).
  apply bind_param_text in Hc as (c' & _ & ->).
  unfold well_typed_polygon. simpl. by rewrite Hlen.
Qed.







(** A polygon of the types of the data model is held as it is. *)
Lemma polygon_bind_well_typed (p : PolygonData.t) :
  well_typed_polygon p = true -> PolygonData.bind p = Return p.
Proof.
  destruct p as [n c]. unfold well_typed_polygon, PolygonData.bind, bind_param, text_of.
  simpl.
  destruct n; try discriminate. simpl.
  destruct (String.length s <=? 100)%nat; [| discriminate].
  destruct c; try discriminate. done.
Qed.




Lemma valid_point_well_typed (p : PointData.t) :
  valid_point p = true -> well_typed_point p = true.
Proof.
  unfold valid_point, well_typed_point.
  intros [[-> Hla]%andb_true_iff Hlo]%andb_true_iff. simpl.
  by destruct (PointData.latitude p), (PointData.longitude p).
Qed.


Lemma empty_table_ok {A : Type} (ok : A -> bool) : table_ok ok empty_table.
Proof. split; [done |]. intros i a H. simpl in H. by rewrite lookup_empty in H. Qed.

Lemma insert_row_ok {A : Type} (ok : A -> bool) (t : table A) (a : A) :
  table_ok ok t -> ok a = true -> table_ok ok (insert_row t a).
Proof.
  intros [H1 Hrows] Ha. split; simpl; [lia |].
  intros i a' Hi. destruct (decide (auto_increment t = i)) as [<- | Hne].
  - rewrite lookup_insert_eq in Hi. injection Hi as <-. split; [lia | done].
  - rewrite lookup_insert_ne in Hi by done.
    destruct (Hrows i a' Hi). split; [lia | done].
Qed.

Lemma update_row_ok {A : Type} (ok : A -> bool) (t : table A) (i : Z) (a0 a : A) :
  table_ok ok t -> rows t !! i = Some a0 -> ok a = true ->
  table_ok ok (Table (<[i := a]> (rows t)) (auto_increment t)).
Proof.
  intros [H1 Hrows] H0 Ha. split; simpl; [done |].
  intros j a' Hj. destruct (decide (i = j)) as [<- | Hne].
  - rewrite lookup_insert_eq in Hj. injection Hj as <-.
    destruct (Hrows i a0 H0). done.
  - rewrite lookup_insert_ne in Hj by done. by apply Hrows.
Qed.

Lemma create_all_ok (d : database) : db_ok d -> db_ok (create_all d).
Proof.
  intros [Hp Hg]. split; simpl; intros t [= <-].
  - destruct (point_data d) as [t|]; simpl; [by apply Hp | apply empty_table_ok].
  - destruct (polygon_data d) as [t|]; simpl; [by apply Hg | apply empty_table_ok].
Qed.

Lemma create_all_exist (d : database) : tables_exist (create_all d).
Proof. split; simpl; eauto. Qed.

Lemma create_all_existing (d : database) : tables_exist d -> create_all d = d.
Proof. destruct d as [[?|] [?|]]; intros [[? ?] [? ?]]; by simplify_eq/=. Qed.

Lemma rows_of_create_all (d : database) :
  rows_of (point_data (create_all d)) = rows_of (point_data d) /\
  rows_of (polygon_data (create_all d)) = rows_of (polygon_data d).
Proof. by destruct d as [[?|] [?|]]. Qed.

Lemma dispatch_request_change (r : request) (d : database) :
  db_change d (run_view (dispatch_request r) d).2.
Proof.
  destruct r as [m p b]. unfold dispatch_request. simpl.
  destruct p, m;
    rewrite ?run_view_ret, ?handle_point_POST, ?handle_point_PUT, ?get_point_run,
      ?handle_polygon_POST, ?handle_polygon_PUT, ?get_polygon_run;
    try apply change_none;
    repeat case_match; simpl; try apply change_none;
    try match goal with H : query_get _ _ _ = _ |- _ =>
      apply query_get_found in H as (t' & ? & ? & ? & ?) end;
    simplify_eq.
  - apply change_point_insert; [done | by eapply point_bind_stored].
  - eapply change_point_update; [done | done | by eapply point_bind_stored].
  - apply change_polygon_insert; [done | by eapply polygon_bind_stored].
  - eapply change_polygon_update; [done | done | by eapply polygon_bind_stored].
Qed.

(** A change keeps the invariant of the database and drops neither a table
    nor a row. *)
Lemma db_change_ok (d d' : database) : db_change d d' -> db_ok d -> db_ok d'.
Proof.
  intros Hc [Hp Hg]. destruct Hc; [done | | | |]; split; simpl;
    try done; intros ? [= <-];
    first [ by apply insert_row_ok; auto | by eapply update_row_ok; eauto ].
Qed.

Lemma db_change_exist (d d' : database) :
  db_change d d' -> tables_exist d -> tables_exist d'.
Proof. intros Hc [? ?]. destruct Hc; [done | | | |]; split; simpl; eauto. Qed.


(** ** Requests *)

Lemma bootstrapped_flag (s : app) : tables_initialized (bootstrapped s) = true.
Proof. unfold bootstrapped, create_tables. by destruct (tables_initialized s) eqn:E. Qed.

Lemma bootstrapped_db (s : app) :
  db (bootstrapped s) = if tables_initialized s then db s else create_all (db s).
Proof. unfold bootstrapped, create_tables. by destruct (tables_initialized s). Qed.

Lemma full_dispatch_request_eq (s : app) (r : request) :
  full_dispatch_request s r =
    (App true (run_view (dispatch_request r) (db (bootstrapped s))).2,
     (create_tables s).2,
     (run_view (dispatch_request r) (db (bootstrapped s))).1).
Proof.
  unfold full_dispatch_request, bootstrapped.
  pose proof (bootstrapped_flag s) as Hf. unfold bootstrapped in Hf.
  destruct (create_tables s) as [s1 trace]. simpl in *.
  destruct (run_view _ _). simpl. by rewrite Hf.
Qed.

Lemma state_after_eq (s : app) (r : request) :
  state_after s r = App true (run_view (dispatch_request r) (db (bootstrapped s))).2.
Proof. unfold state_after. by rewrite full_dispatch_request_eq. Qed.

Lemma outcome_eq (s : app) (r : request) :
  outcome s r = (run_view (dispatch_request r) (db (bootstrapped s))).1.
Proof. unfold outcome. by rewrite full_dispatch_request_eq. Qed.

Lemma effects_of_eq (s : app) (r : request) :
  effects_of s r = if tables_initialized s then [] else [CreateAll].
Proof.
  unfold effects_of. rewrite full_dispatch_request_eq. simpl.
  unfold create_tables. by destruct (tables_initialized s).
Qed.

Lemma bootstrapped_eq (s : app) : bootstrapped s = App true (db (bootstrapped s)).
Proof. rewrite <- (bootstrapped_flag s). by destruct (bootstrapped s). Qed.

Lemma bootstrapped_ok (s : app) : app_ok s -> app_ok (bootstrapped s).
Proof.
  intros [Hd Hf]. split; rewrite bootstrapped_db.
  - destruct (tables_initialized s); [done | by apply create_all_ok].
  - intros _. destruct (tables_initialized s); [by apply Hf | apply create_all_exist].
Qed.

Lemma bootstrapped_exist (s : app) : app_ok s -> tables_exist (db (bootstrapped s)).
Proof. intros H. apply (bootstrapped_ok s H), bootstrapped_flag. Qed.

Lemma bootstrapped_rows (s : app) :
  point_rows (bootstrapped s) = point_rows s /\
  polygon_rows (bootstrapped s) = polygon_rows s.
Proof.
  unfold point_rows, polygon_rows. rewrite bootstrapped_db.
  destruct (tables_initialized s); [done | apply rows_of_create_all].
Qed.

Lemma state_after_ok (s : app) (r : request) : app_ok s -> app_ok (state_after s r).
Proof.
  intros H. pose proof (bootstrapped_ok s H) as [Hd Hf].
  rewrite state_after_eq. split; simpl.
  - eapply db_change_ok; [apply dispatch_request_change | done].
  - intros _. eapply db_change_exist; [apply dispatch_request_change |].
    apply Hf, bootstrapped_flag.
Qed.

Lemma restart_ok (s : app) : app_ok s -> app_ok (restart s).
Proof. intros [Hd _]. split; [done | discriminate]. Qed.

Lemma pristine_ok : app_ok pristine.
Proof. split; [| discriminate]. split; discriminate. Qed.

Lemma reaches_ok (s0 s : app) : reaches s0 s -> app_ok s0 -> app_ok s.
Proof.
  induction 1 as [| s r _ IH | s _ IH]; intros H0;
    [done | apply state_after_ok, IH, H0 | apply restart_ok, IH, H0].
Qed.

Lemma reachable_ok (s : app) : reachable s -> app_ok s.
Proof. intros H. apply (reaches_ok _ _ H), pristine_ok. Qed.




(** After the hook both tables exist and hold the rows they held before. *)
Lemma bootstrapped_tables (s : app) :
  app_ok s ->
  exists tp tg,
    db (bootstrapped s) = Database (Some tp) (Some tg) /\
    rows tp = point_rows s /\ rows tg = polygon_rows s /\
    table_ok well_typed_point tp /\ table_ok well_typed_polygon tg.
Proof.
  intros H. destruct (bootstrapped_rows s) as [<- <-].
  pose proof (bootstrapped_ok s H) as [[Hp Hg] _].
  pose proof (bootstrapped_exist s H) as [[tp Htp] [tg Htg]].
  unfold point_rows, polygon_rows.
  destruct (db (bootstrapped s)) as [pd gd]; simpl in *. subst.
  exists tp, tg. split; [done |]. split; [done |]. split; [done |].
  split; [by apply Hp | by apply Hg].
Qed.

Lemma state_after_unchanged (s : app) (r : request) :
  (run_view (dispatch_request r) (db (bootstrapped s))).2 = db (bootstrapped s) ->
  state_after s r = bootstrapped s /\
  point_rows (state_after s r) = point_rows s /\
  polygon_rows (state_after s r) = polygon_rows s.
Proof.
  intros H. assert (state_after s r = bootstrapped s) as ->.
  { rewrite state_after_eq, H. symmetry. apply bootstrapped_eq. }
  split; [done | apply bootstrapped_rows].
Qed.

Lemma request_unchanged (s : app) (r : request) (resp : result response) :
  run_view (dispatch_request r) (db (bootstrapped s)) = (resp, db (bootstrapped s)) ->
  outcome s r = resp /\
  state_after s r = bootstrapped s /\
  point_rows (state_after s r) = point_rows s /\
  polygon_rows (state_after s r) = polygon_rows s.
Proof.
  intros H. split; [by rewrite outcome_eq, H |].
  apply state_after_unchanged. by rewrite H.
Qed.

(** ** Not found *)

(** C1, update-or-404 and read-miss.  For every integer [i] that is not a
    key of the table: the view of PUT, given a body whose id is [i], and the
    view of GET, given [i], answer 404 with the error body and leave the
    database as it was, for points and for polygons; and in every state the
    service can be in, the PUT and GET requests for such a key answer the
    same, and leave behind what the hook alone leaves behind, with the rows
    of both tables as they were. *)
Theorem missing_id_is_not_found :
  (forall d t i data,
     point_data d = Some t -> rows t !! i = None ->
     getitem data "id" = Return (JInt i) ->
     run_view (handle_point PUT data) d = (Return point_not_found, d)) /\
  (forall d t i,
     point_data d = Some t -> rows t !! i = None ->
     run_view (get_point i) d = (Return point_not_found, d)) /\
  (forall d t i data,
     polygon_data d = Some t -> rows t !! i = None ->
     getitem data "id" = Return (JInt i) ->
     run_view (handle_polygon PUT data) d = (Return polygon_not_found, d)) /\
  (forall d t i,
     polygon_data d = Some t -> rows t !! i = None ->
     run_view (get_polygon i) d = (Return polygon_not_found, d)) /\
  (forall s, reachable s ->
     (forall i data,
        point_rows s !! i = None -> getitem data "id" = Return (JInt i) ->
        let r := Request PUT url_point data in
        outcome s r = Return point_not_found /\
        state_after s r = bootstrapped s /\
        point_rows (state_after s r) = point_rows s /\
        polygon_rows (state_after s r) = polygon_rows s) /\
     (forall (i : N) b,
        point_rows s !! Z.of_N i = None ->
        let r := Request GET (url_point_id i) b in
        outcome s r = Return point_not_found /\
        state_after s r = bootstrapped s /\
        point_rows (state_after s r) = point_rows s /\
        polygon_rows (state_after s r) = polygon_rows s) /\
     (forall i data,
        polygon_rows s !! i = None -> getitem data "id" = Return (JInt i) ->
        let r := Request PUT url_polygon data in
        outcome s r = Return polygon_not_found /\
        state_after s r = bootstrapped s /\
        point_rows (state_after s r) = point_rows s /\
        polygon_rows (state_after s r) = polygon_rows s) /\
     (forall (i : N) b,
        polygon_rows s !! Z.of_N i = None ->
        let r := Request GET (url_polygon_id i) b in
        outcome s r = Return polygon_not_found /\
        state_after s r = bootstrapped s /\
        point_rows (state_after s r) = point_rows s /\
        polygon_rows (state_after s r) = polygon_rows s)).
Proof.
  assert (Hput_pt : forall d t i data,
     point_data d = Some t -> rows t !! i = None ->
     getitem data "id" = Return (JInt i) ->
     run_view (handle_point PUT data) d = (Return point_not_found, d)).
  { intros d t i data Ht Hi Hid.
    by rewrite handle_point_PUT, Hid, Ht, query_get_int, Hi. }
  assert (Hget_pt : forall d t i,
     point_data d = Some t -> rows t !! i = None ->
     run_view (get_point i) d = (Return point_not_found, d)).
  { intros d t i Ht Hi. by rewrite get_point_run, Ht, Hi. }
  assert (Hput_pg : forall d t i data,
     polygon_data d = Some t -> rows t !! i = None ->
     getitem data "id" = Return (JInt i) ->
     run_view (handle_polygon PUT data) d = (Return polygon_not_found, d)).
  { intros d t i data Ht Hi Hid.
    by rewrite handle_polygon_PUT, Hid, Ht, query_get_int, Hi. }
  assert (Hget_pg : forall d t i,
     polygon_data d = Some t -> rows t !! i = None ->
     run_view (get_polygon i) d = (Return polygon_not_found, d)).
  { intros d t i Ht Hi. by rewrite get_polygon_run, Ht, Hi. }
  do 4 (split; [done |]).
  intros s Hs.
  destruct (bootstrapped_tables s (reachable_ok s Hs)) as (tp & tg & Hdb & Hp & Hg & _).
  split; [| split; [| split]].
  - intros i data Hi Hid r. rewrite <- Hp in Hi. apply request_unchanged.
    apply (Hput_pt _ tp i); [by rewrite Hdb | done | done].
  - intros i b Hi r. rewrite <- Hp in Hi. apply request_unchanged.
    apply (Hget_pt _ tp); [by rewrite Hdb | done].
  - intros i data Hi Hid r. rewrite <- Hg in Hi. apply request_unchanged.
    apply (Hput_pg _ tg i); [by rewrite Hdb | done | done].
  - intros i b Hi r. rewrite <- Hg in Hi. apply request_unchanged.
    apply (Hget_pg _ tg); [by rewrite Hdb | done].
Qed.

Lemma missing_id_is_not_found_witness :
  reachable one_of_each /\
  outcome one_of_each (Request PUT url_point example_absent_update)
    = Return point_not_found /\
  point_rows (state_after one_of_each (Request PUT url_point example_absent_update))
    = point_rows one_of_each /\
  outcome one_of_each (Request GET (url_polygon_id 2) JNull)
    = Return polygon_not_found.
Proof.
  assert (reachable one_of_each) as Hs by (do 2 apply reaches_request; apply reaches_here).
  destruct missing_id_is_not_found as (_ & _ & _ & _ & H).
  destruct (H one_of_each Hs) as (Hput & _ & _ & Hget).
  destruct (Hput 999%Z example_absent_update) as (H1 & _ & H2 & _);
    [vm_compute; reflexivity | reflexivity |].
  destruct (Hget 2%N JNull) as (H3 & _); [vm_compute; reflexivity |].
  exact (conj Hs (conj H1 (conj H2 H3))).
Defined.


(** ** Update *)


Lemma put_polygon_run (d : database) (t : table PolygonData.t) (i : Z)
    (old p : PolygonData.t) (data : json) :
  polygon_data d = Some t -> rows t !! i = Some old ->
  getitem data "id" = Return (JInt i) -> polygon_fields data p ->
  well_typed_polygon p = true ->
  run_view (handle_polygon PUT data) d =
    (Return polygon_saved,
     Database (point_data d) (Some (Table (<[i := p]> (rows t)) (auto_increment t)))).
Proof.
  intros Ht Hi Hid (Hn & Hc) Hp. apply polygon_bind_well_typed in Hp.
  destruct p as [n c]. simpl in *.
  by rewrite handle_polygon_PUT, Hid, Ht, query_get_int, Hi, Hn, Hc, Hp.
Qed.


Lemma put_overwrites_row_polygon (s : app) (i : Z) (data : json) (old p : PolygonData.t) :
  app_ok s -> getitem data "id" = Return (JInt i) ->
  polygon_rows s !! i = Some old -> polygon_fields data p -> well_typed_polygon p = true ->
  outcome s (Request PUT url_polygon data) = Return polygon_saved /\
  polygon_rows (state_after s (Request PUT url_polygon data)) = <[i := p]> (polygon_rows s) /\
  point_rows (state_after s (Request PUT url_polygon data)) = point_rows s.
Proof.
  intros Hs Hid Hi Hf Hwt.
  destruct (bootstrapped_tables s Hs) as (tp & tg & Hdb & Hp & Hg & _).
  rewrite <- Hg in Hi.
  pose proof (put_polygon_run (db (bootstrapped s)) tg i old p data) as Hrun.
  rewrite Hdb in Hrun. specialize (Hrun eq_refl Hi Hid Hf Hwt). rewrite <- Hdb in Hrun.
  rewrite outcome_eq, state_after_eq. unfold dispatch_request. simpl.
  rewrite Hrun, Hdb. unfold point_rows, polygon_rows. simpl. by rewrite Hp, Hg.
Qed.


(** ** Create and read back *)

Lemma table_ok_fresh {A : Type} (ok : A -> bool) (t : table A) :
  table_ok ok t ->
  rows t !! auto_increment t = None /\
  forall j, is_Some (rows t !! j) -> (j < auto_increment t)%Z.
Proof.
  intros [_ Hrows]. split.
  - apply eq_None_not_Some. intros [a Ha]. apply Hrows in Ha. lia.
  - intros j [a Ha]. apply Hrows in Ha. lia.
Qed.



Lemma post_polygon_request (s : app) (data : json) (p : PolygonData.t) :
  app_ok s -> polygon_fields data p -> well_typed_polygon p = true ->
  exists i,
    (1 <= i)%Z /\ polygon_rows s !! i = None /\
    (forall j, is_Some (polygon_rows s !! j) -> (j < i)%Z) /\
    outcome s (Request POST url_polygon data) = Return polygon_saved /\
    polygon_rows (state_after s (Request POST url_polygon data)) = <[i := p]> (polygon_rows s) /\
    point_rows (state_after s (Request POST url_polygon data)) = point_rows s.
Proof.
  intros Hs (Hn & Hc) Hwt. apply polygon_bind_well_typed in Hwt.
  destruct (bootstrapped_tables s Hs) as (tp & tg & Hdb & Hp & Hg & _ & Hok).
  destruct (table_ok_fresh _ _ Hok) as [Hfresh Hlt]. rewrite Hg in Hfresh, Hlt.
  exists (auto_increment tg). destruct Hok as [H1 _].
  do 3 (split; [done |]).
  rewrite outcome_eq, state_after_eq. unfold dispatch_request. simpl.
  destruct p as [n c]. simpl in *.
  rewrite handle_polygon_POST, Hn, Hc, Hdb. simpl. rewrite Hwt.
  unfold point_rows, polygon_rows. simpl. by rewrite Hp, Hg.
Qed.


Lemma get_polygon_request (s : app) (i : N) (b : json) (p : PolygonData.t) :
  app_ok s -> polygon_rows s !! Z.of_N i = Some p ->
  outcome s (Request GET (url_polygon_id i) b)
    = Return (Response (polygon_json (Z.of_N i) p) 200) /\
  state_after s (Request GET (url_polygon_id i) b) = bootstrapped s.
Proof.
  intros Hs Hi.
  destruct (bootstrapped_tables s Hs) as (tp & tg & Hdb & Hp & Hg & _).
  rewrite <- Hg in Hi.
  assert (run_view (dispatch_request (Request GET (url_polygon_id i) b)) (db (bootstrapped s))
          = (Return (Response (polygon_json (Z.of_N i) p) 200), db (bootstrapped s))) as Hrun.
  { unfold dispatch_request. simpl. rewrite get_polygon_run, Hdb. simpl. by rewrite Hi. }
  by destruct (request_unchanged _ _ _ Hrun) as (? & ? & _).
Qed.








(** C5, opaque coordinates.  In every state the service can be in and for
    every string [c] whatever, a body whose coordinates are [c], with a
    well-typed name, is accepted by POST, which stores [c] itself in the
    new row, and GET on that row answers coordinates [c]; and it is
    accepted by PUT on an existing key, after which the row under that key
    holds [c] itself and GET answers coordinates [c]. *)
Theorem coordinates_are_opaque (s : app) (c : string) (name : json) (data : json) :
  reachable s ->
  getitem data "name" = Return name -> is_name name = true ->
  getitem data "coordinates" = Return (JStr c) ->
  (let r := Request POST url_polygon data in
   outcome s r = Return polygon_saved /\
   exists i : N,
     polygon_rows s !! Z.of_N i = None /\
     polygon_rows (state_after s r) !! Z.of_N i = Some (PolygonData.new name (JStr c)) /\
     forall b, exists answer,
       outcome (state_after s r) (Request GET (url_polygon_id i) b)
         = Return (Response answer 200) /\
       getitem answer "coordinates" = Return (JStr c)) /\
  (forall i : N,
     getitem data "id" = Return (JInt (Z.of_N i)) ->
     is_Some (polygon_rows s !! Z.of_N i) ->
     let r := Request PUT url_polygon data in
     outcome s r = Return polygon_saved /\
     polygon_rows (state_after s r) !! Z.of_N i = Some (PolygonData.new name (JStr c)) /\
     forall b, exists answer,
       outcome (state_after s r) (Request GET (url_polygon_id i) b)
         = Return (Response answer 200) /\
       getitem answer "coordinates" = Return (JStr c)).
Proof.
  intros Hs Hn Hname Hc.
  set (p := PolygonData.new name (JStr c)).
  assert (polygon_fields data p) as Hf by done.
  assert (well_typed_polygon p = true) as Hwt.
  { unfold well_typed_polygon. simpl. by rewrite Hname. }
  pose proof (reachable_ok s Hs) as Hok.
  split.
  - intros r.
    destruct (post_polygon_request s data p Hok Hf Hwt) as (i & H1 & Hfree & _ & Hout & Hrows & _).
    split; [done |]. exists (Z.to_N i). rewrite Z2N.id by lia.
    assert (polygon_rows (state_after s r) !! i = Some p) as Hi.
    { unfold r. rewrite Hrows. apply lookup_insert_eq. }
    do 2 (split; [done |]). intros b. exists (polygon_json i p).
    pose proof (get_polygon_request (state_after s r) (Z.to_N i) b p) as Hget.
    rewrite Z2N.id in Hget by lia.
    destruct Hget as [Hget _]; [by apply state_after_ok | done |].
    by rewrite Hget.
  - intros i Hid [old Hold] r.
    destruct (put_overwrites_row_polygon s (Z.of_N i) data old p Hok Hid Hold Hf Hwt)
      as (Hout & Hrows & _).
    assert (polygon_rows (state_after s r) !! Z.of_N i = Some p) as Hi.
    { unfold r. rewrite Hrows. apply lookup_insert_eq. }
    do 2 (split; [done |]). intros b. exists (polygon_json (Z.of_N i) p).
    destruct (get_polygon_request (state_after s r) i b p) as [Hget _];
      [by apply state_after_ok | done |].
    by rewrite Hget.
Qed.

Lemma coordinates_are_opaque_witness :
  reachable one_of_each /\
  outcome one_of_each (Request PUT url_polygon example_polygon) = Return polygon_saved /\
  polygon_rows (state_after one_of_each (Request PUT url_polygon example_polygon)) !! 1%Z
    = Some (PolygonData.new (JStr "P") (JStr "[[[0, 0], [1")).
Proof.
  assert (reachable one_of_each) as Hs by (do 2 apply reaches_request; apply reaches_here).
  destruct (coordinates_are_opaque one_of_each "[[[0, 0], [1" (JStr "P") example_polygon
              Hs eq_refl eq_refl eq_refl) as [_ Hput].
  destruct (Hput 1%N) as (H1 & H2 & _);
    [reflexivity | vm_compute; eauto |].
  exact (conj Hs (conj H1 H2)).
Defined.


(** ** The hook *)

Lemma state_after_flag (s : app) (r : request) : tables_initialized (state_after s r) = true.
Proof. by rewrite state_after_eq. Qed.

Lemma state_after_exist (s : app) (r : request) :
  tables_exist (db (bootstrapped s)) -> tables_exist (db (state_after s r)).
Proof.
  intros H. rewrite state_after_eq. simpl.
  eapply db_change_exist; [apply dispatch_request_change | done].
Qed.

Lemma run_initialized (s : app) (rs : list request) :
  tables_initialized s = true ->
  (run s rs).2 = replicate (length rs) [] /\ tables_initialized (run s rs).1 = true.
Proof.
  revert s. induction rs as [| r rs IH]; intros s Hs; [done |].
  simpl. destruct (IH (state_after s r) (state_after_flag s r)) as [IH1 IH2].
  destruct (run (state_after s r) rs) as [s' traces]. simpl in *.
  by rewrite effects_of_eq, Hs, IH1.
Qed.

(** Once the flag is set and the tables exist, they exist after every run. *)
Lemma run_exist (s : app) (rs : list request) :
  tables_initialized s = true -> tables_exist (db s) -> tables_exist (db (run s rs).1).
Proof.
  revert s. induction rs as [| r rs IH]; intros s Hs He; [done |].
  simpl. specialize (IH (state_after s r) (state_after_flag s r)).
  destruct (run (state_after s r) rs) as [s' traces]. simpl in *.
  apply IH, state_after_exist. by rewrite bootstrapped_db, Hs.
Qed.

(** C6, the tables are created once.  A request received while the flag is
    false, whatever its method and URL, calls [db.create_all()] once and
    leaves the flag true: its view runs on the database [db.create_all()]
    gives, in which both tables exist, a table that was missing being
    empty and one that was there having its rows, and both tables exist
    when the request is over.  A request received while the flag is true
    does not call it and leaves the flag true: its view runs on the
    database as it stands.  So a run of a process, which starts with the
    flag false, over one request or more calls it in the first request,
    once, and in no later one, and both tables exist at its end. *)
Theorem tables_created_once :
  (forall s r, tables_initialized s = false ->
     effects_of s r = [CreateAll] /\ tables_initialized (state_after s r) = true /\
     outcome s r = (run_view (dispatch_request r) (create_all (db s))).1 /\
     db (state_after s r) = (run_view (dispatch_request r) (create_all (db s))).2 /\
     point_data (create_all (db s)) = Some (default empty_table (point_data (db s))) /\
     polygon_data (create_all (db s)) = Some (default empty_table (polygon_data (db s))) /\
     tables_exist (db (state_after s r))) /\
  (forall s r, tables_initialized s = true ->
     effects_of s r = [] /\ tables_initialized (state_after s r) = true /\
     outcome s r = (run_view (dispatch_request r) (db s)).1 /\
     db (state_after s r) = (run_view (dispatch_request r) (db s)).2) /\
  (forall s r rs, tables_initialized s = false ->
     (run s (r :: rs)).2 = [CreateAll] :: replicate (length rs) [] /\
     concat (run s (r :: rs)).2 = [CreateAll] /\
     tables_initialized (run s (r :: rs)).1 = true /\
     (run s (r :: rs)).1 = (run (state_after s r) rs).1 /\
     tables_exist (db (run s (r :: rs)).1)).
Proof.
  split; [| split].
  - intros s r Hs. rewrite effects_of_eq, outcome_eq, Hs, state_after_flag.
    do 2 (split; [done |]).
    assert (db (bootstrapped s) = create_all (db s)) as Hb
      by (by rewrite bootstrapped_db, Hs).
    rewrite <- Hb. split; [done |].
    split; [by rewrite state_after_eq |].
    rewrite Hb. do 2 (split; [done |]).
    apply state_after_exist. rewrite Hb. apply create_all_exist.
  - intros s r Hs. rewrite effects_of_eq, outcome_eq, Hs, state_after_flag.
    do 2 (split; [done |]).
    assert (db (bootstrapped s) = db s) as Hb by (by rewrite bootstrapped_db, Hs).
    rewrite <- Hb. split; [done |]. by rewrite state_after_eq.
  - intros s r rs Hs.
    assert (tables_exist (db (state_after s r))) as He.
    { apply state_after_exist. rewrite bootstrapped_db, Hs. apply create_all_exist. }
    pose proof (run_exist (state_after s r) rs (state_after_flag s r) He) as Hend.
    simpl.
    destruct (run_initialized (state_after s r) rs (state_after_flag s r)) as [H1 H2].
    destruct (run (state_after s r) rs) as [s' traces]. simpl in *.
    rewrite effects_of_eq, Hs, H1. split; [done |]. split; [| done].
    simpl. f_equal. clear. induction (length rs) as [| n IH]; [done | by simpl].
Qed.

Lemma tables_created_once_witness :
  tables_initialized pristine = false /\
  (run pristine [Request DELETE url_unknown JNull;
                 Request POST url_point example_point;
                 Request GET (url_point_id 1) JNull]).2
    = [[CreateAll]; []; []].
Proof.
  split; [reflexivity |].
  destruct tables_created_once as (_ & _ & H).
  apply (H pristine (Request DELETE url_unknown JNull)
           [Request POST url_point example_point; Request GET (url_point_id 1) JNull]).
  reflexivity.
Defined.



(** ** The calls of [db.create_all()] when requests overlap *)

(** A worker that runs the hook alone does what [create_tables] does. *)
Lemma ddl_alone (s : app) :
  ddl_interleave (ddl_arrivals s 1) (all_in_turn 1) = (bootstrapped s, [ddl_view]).
Proof.
  destruct s as [flag [[tp|] [tg|]]]; by destruct flag.
Qed.

Lemma ddl_worker_step_at (s : app) (pre post : list ddl_pc) (pc : ddl_pc) :
  ddl_worker_step (s, pre ++ pc :: post)%list (length pre)
    = ((ddl_step s pc).1, (pre ++ (ddl_step s pc).2 :: post)%list).
Proof.
  unfold ddl_worker_step. simpl.
  rewrite list_lookup_middle by done.
  destruct (ddl_step s pc) as [s' pc']. simpl. f_equal.
  rewrite insert_app_r_alt, Nat.sub_diag by done. done.
Qed.

(** One step by each of the workers that follow the workers [pre], all
    standing at [X], when the step moves a worker to [Y] and leaves the
    process as it is. *)
Lemma ddl_one_step_each (s : app) (X Y : ddl_pc) :
  ddl_step s X = (s, Y) ->
  forall m pre,
    ddl_interleave (s, pre ++ replicate m X)%list (seq (length pre) m)
      = (s, (pre ++ replicate m Y)%list).
Proof.
  intros Hstep. induction m as [| m IH]; intros pre; [done |].
  simpl. rewrite ddl_worker_step_at, Hstep. simpl.
  specialize (IH (pre ++ [Y])%list).
  rewrite length_app, Nat.add_1_r, <- !app_assoc in IH. done.
Qed.

Lemma ddl_one_step_all (s : app) (X Y : ddl_pc) (m : nat) :
  ddl_step s X = (s, Y) ->
  ddl_interleave (s, replicate m X) (seq 0 m) = (s, replicate m Y).
Proof. intros H. apply (ddl_one_step_each s X Y H m []). Qed.

Lemma ddl_one_step_rest (s : app) (X Y first : ddl_pc) (m : nat) :
  ddl_step s X = (s, Y) ->
  ddl_interleave (s, first :: replicate m X) (seq 1 m) = (s, first :: replicate m Y).
Proof. intros H. apply (ddl_one_step_each s X Y H m [first]). Qed.

Lemma ddl_first_step (s : app) (pc : ddl_pc) (rest : list ddl_pc) (schedule : list nat) :
  ddl_interleave (s, pc :: rest) (0 :: schedule)
    = ddl_interleave ((ddl_step s pc).1, (ddl_step s pc).2 :: rest) schedule.
Proof.
  unfold ddl_interleave. cbn [foldl]. f_equal.
  unfold ddl_worker_step. cbn -[ddl_step]. by destruct (ddl_step s pc).
Qed.

Lemma ddl_interleave_app (sv : app * list ddl_pc) (a b : list nat) :
  ddl_interleave sv (a ++ b) = ddl_interleave (ddl_interleave sv a) b.
Proof. apply foldl_app. Qed.

(** Every worker but the first is refused when all take their steps in
    turn on a database that lacks a table. *)
Lemma ddl_all_in_turn (pt : option (table PointData.t)) (pg : option (table PolygonData.t))
    (n : nat) :
  is_missing pt || is_missing pg = true ->
  ddl_interleave (ddl_arrivals (App false (Database pt pg)) (S (S n))) (all_in_turn (S (S n)))
    = (App true (create_all (Database pt pg)),
       ddl_view :: replicate (S n) (ddl_raised OperationalError)).
Proof.
  intros Hmiss. unfold all_in_turn, ddl_arrivals. rewrite !ddl_interleave_app.
  set (s0 := App false (Database pt pg)).
  set (s1 := App false (create_all (Database pt pg))).
  set (create := ddl_create (is_missing pt) (is_missing pg)).
  assert (ddl_step s0 create = (s1, ddl_set_flag)) as H0 by (by destruct pt, pg).
  assert (ddl_step s1 create = (s1, ddl_raised OperationalError)) as H1
    by (by destruct pt, pg).
  rewrite (ddl_one_step_all s0 ddl_test ddl_look) by done.
  rewrite (ddl_one_step_all s0 ddl_look create) by done.
  change (seq 0 (S (S n))) with (0 :: seq 1 (S n)).
  change (replicate (S (S n)) create) with (create :: replicate (S n) create).
  rewrite ddl_first_step, H0. simpl fst. simpl snd.
  rewrite (ddl_one_step_rest s1 create (ddl_raised OperationalError)) by done.
  rewrite ddl_first_step. simpl fst. simpl snd.
  by apply ddl_one_step_rest.
Qed.

Lemma create_all_create_all (d : database) : create_all (create_all d) = create_all d.
Proof. by destruct d as [[?|] [?|]]. Qed.

(** Whatever the schedule, the database is the one the workers found or
    the one a single call of [db.create_all()] makes of it: in the model
    where the call is one step, *)
Lemma interleave_one_schema (s : app) (n : nat) (schedule : list nat) :
  db (process (interleave (arrivals s n) schedule)) = db s \/
  db (process (interleave (arrivals s n) schedule)) = create_all (db s).
Proof.
  induction schedule as [| i schedule IH] using rev_ind; [by left |].
  unfold interleave in *. rewrite foldl_app. simpl.
  set (sv := foldl worker_step (arrivals s n) schedule) in *.
  unfold worker_step. destruct (workers sv !! i) as [pc|]; [| done].
  destruct pc; simpl; try done.
  - by destruct (negb _).
  - right. destruct IH as [-> | ->]; [done | apply create_all_create_all].
Qed.

(** and in the model where it looks first and creates then. *)
Lemma ddl_one_schema (s : app) (n : nat) (schedule : list nat) :
  (db (ddl_interleave (ddl_arrivals s n) schedule).1 = db s \/
   db (ddl_interleave (ddl_arrivals s n) schedule).1 = create_all (db s)) /\
  (forall i a b,
     (ddl_interleave (ddl_arrivals s n) schedule).2 !! i = Some (ddl_create a b) ->
     (a = is_missing (point_data (db s)) /\ b = is_missing (polygon_data (db s))) \/
     (a = false /\ b = false)).
Proof.
  induction schedule as [| k schedule IH] using rev_ind.
  - split; [by left |]. intros i a b [? _]%lookup_replicate. discriminate.
  - unfold ddl_interleave in *. rewrite foldl_app. simpl.
    destruct (foldl ddl_worker_step (ddl_arrivals s n) schedule) as [s' pcs].
    simpl in IH. destruct IH as [Hdb Hpcs].
    unfold ddl_worker_step. simpl.
    destruct (pcs !! k) as [pc|] eqn:Hk; [| done].
    destruct pc as [| | a b | | |]; simpl.
    + destruct (negb _); simpl; (split; [done |]); intros i a b Hi;
        apply list_lookup_insert_Some in Hi as [(_ & [=] & _) | (_ & Hi)]; eauto.
    + split; [done |]. intros i a b Hi.
      apply list_lookup_insert_Some in Hi as [(_ & [= <- <-] & _) | (_ & Hi)]; [| eauto].
      destruct Hdb as [-> | ->]; [by left |]. by right.
    + assert (forall i a0 b0 pc', pc' <> ddl_create a0 b0 ->
                <[k := pc']> pcs !! i = Some (ddl_create a0 b0) ->
                (a0 = is_missing (point_data (db s)) /\
                 b0 = is_missing (polygon_data (db s))) \/ (a0 = false /\ b0 = false))
        as Hrest.
      { intros i a0 b0 pc' Hne Hi.
        apply list_lookup_insert_Some in Hi as [(_ & ? & _) | (_ & Hi)]; [congruence | eauto]. }
      destruct (Hpcs k a b Hk) as [[-> ->] | [-> ->]];
        destruct s as [flag [pt pg]], s' as [flag' d']; simpl in *;
        destruct Hdb as [-> | ->]; destruct pt, pg; simpl;
        (split; [by eauto | intros i a0 b0; by apply Hrest]).
    + split; [done |]. intros i a b Hi.
      apply list_lookup_insert_Some in Hi as [(_ & [=] & _) | (_ & Hi)]; eauto.
    + split; [done |]. intros i a b Hi.
      apply list_lookup_insert_Some in Hi as [(_ & [=] & _) | (_ & Hi)]; eauto.
    + split; [done |]. intros i a b Hi.
      apply list_lookup_insert_Some in Hi as [(_ & [=] & _) | (_ & Hi)]; eauto.
Qed.

(** C7, the hook under concurrent first requests.  The source has half of
    the property.  Whatever the number of requests and the order in which
    their workers take their steps, the database is at any moment the one
    they found or the one a single call of [db.create_all()] makes of it:
    there is one schema, whether the call is taken as one step or as the
    look and the CREATE TABLE statements it consists of.  But an error can
    surface.  Take a process whose flag is false on a database that lacks a
    table, and two requests or more whose workers take their steps in
    turn: all find the flag false, all find the table missing, the first
    creates it and every other, which issues CREATE TABLE for a table that
    exists by now, is refused: its request fails with OperationalError
    before its view runs.  A worker that runs the same steps alone ends as
    [create_tables] ends, without an error. *)
Theorem concurrent_create_all_raises (s : app) (n : nat) :
  (forall schedule,
     (db (process (interleave (arrivals s n) schedule)) = db s \/
      db (process (interleave (arrivals s n) schedule)) = create_all (db s)) /\
     (db (ddl_interleave (ddl_arrivals s n) schedule).1 = db s \/
      db (ddl_interleave (ddl_arrivals s n) schedule).1 = create_all (db s))) /\
  (tables_initialized s = false ->
   is_missing (point_data (db s)) || is_missing (polygon_data (db s)) = true ->
   ddl_interleave (ddl_arrivals s 1) (all_in_turn 1) = (bootstrapped s, [ddl_view]) /\
   ddl_interleave (ddl_arrivals s (S (S n))) (all_in_turn (S (S n)))
     = (bootstrapped s, ddl_view :: replicate (S n) (ddl_raised OperationalError)) /\
   ddl_interleave (ddl_arrivals s 2) two_in_turn
     = (App true (create_all (db s)), [ddl_view; ddl_raised OperationalError])).
Proof.
  split.
  - intros schedule. split; [apply interleave_one_schema | apply ddl_one_schema].
  - intros Hflag Hmiss. split; [apply ddl_alone |].
    destruct s as [flag [pt pg]]. simpl in *. subst flag.
    split; [by apply ddl_all_in_turn |].
    by apply (ddl_all_in_turn pt pg 0).
Qed.

Lemma concurrent_create_all_raises_witness :
  tables_initialized pristine = false /\
  ddl_interleave (ddl_arrivals pristine 2) two_in_turn
    = (App true (Database (Some empty_table) (Some empty_table)),
       [ddl_view; ddl_raised OperationalError]).
Proof.
  split; [reflexivity |].
  destruct (concurrent_create_all_raises pristine 0) as [_ H].
  destruct (H eq_refl eq_refl) as (_ & _ & H2).
  exact H2.
Defined.
(** ** Failure *)

Lemma getitem_object_raise (members : list (string * json)) (k : string) (e : exn) :
  getitem (JObj members) k = Raise e -> exists k', e = KeyError k'.
Proof.
  unfold getitem. destruct (dict_get k members); [done |].
  intros [= <-]. by eexists.
Qed.

(** A view that raises has written nothing. *)
Lemma dispatch_request_raise (r : request) (d d' : database) (e : exn) :
  run_view (dispatch_request r) d = (Raise e, d') -> d' = d.
Proof.
  destruct r as [m p b]. unfold dispatch_request. simpl.
  destruct p, m;
    rewrite ?run_view_ret, ?handle_point_POST, ?handle_point_PUT, ?get_point_run,
      ?handle_polygon_POST, ?handle_polygon_PUT, ?get_polygon_run;
    intros H; repeat case_match; by simplify_eq.
Qed.

Lemma request_raise (s : app) (r : request) (e : exn) :
  outcome s r = Raise e ->
  state_after s r = bootstrapped s /\
  point_rows (state_after s r) = point_rows s /\
  polygon_rows (state_after s r) = polygon_rows s.
Proof.
  rewrite outcome_eq. intros H. apply state_after_unchanged.
  destruct (run_view _ _) as [res d'] eqn:Hrun. simpl in *. subst res.
  by apply dispatch_request_raise in Hrun.
Qed.

(** C8, no partial row.  In every state the service can be in, every row of
    the point table has a name, a latitude and a longitude that are not
    null, of the types of the data model, under its integer key; and a
    request that fails, an update among them, leaves behind what the hook
    alone leaves behind, with every row of both tables as it was. *)
Theorem point_rows_always_populated :
  (forall s, reachable s ->
     forall i p, point_rows s !! i = Some p ->
       populated p /\ well_typed_point p = true) /\
  (forall s r e, outcome s r = Raise e ->
     state_after s r = bootstrapped s /\
     point_rows (state_after s r) = point_rows s /\
     polygon_rows (state_after s r) = polygon_rows s).
Proof.
  split; [| apply request_raise].
  intros s Hs i p Hi. apply reachable_ok in Hs as [[Hp _] _].
  unfold point_rows in Hi. destruct (point_data (db s)) as [t|]; [| done].
  destruct (Hp t eq_refl) as [_ Hrows]. apply Hrows in Hi as [_ Hb].
  split; [| done].
  destruct p as [n la lo]. unfold well_typed_point in Hb. simpl in Hb.
  apply andb_true_iff in Hb as [[Hn Hla]%andb_true_iff Hlo].
  unfold populated. simpl.
  split; [| split]; intros ->; discriminate.
Qed.

Lemma point_rows_always_populated_witness :
  outcome one_point (Request PUT url_point example_partial_update)
    = Raise (KeyError "latitude") /\
  outcome one_point (Request PUT url_point example_invalid_update) = Raise DataError /\
  point_rows (state_after one_point (Request PUT url_point example_partial_update))
    = point_rows one_point /\
  point_rows (state_after one_point (Request PUT url_point example_invalid_update))
    = point_rows one_point /\
  populated (PointData.new (JStr "A") (JFloat 1.0) (JFloat 2.0)).
Proof.
  assert (reachable one_point) as Hs by (apply reaches_request, reaches_here).
  destruct point_rows_always_populated as [Hrows Hfail].
  assert (outcome one_point (Request PUT url_point example_partial_update)
          = Raise (KeyError "latitude")) as H1 by (vm_compute; reflexivity).
  assert (outcome one_point (Request PUT url_point example_invalid_update)
          = Raise DataError) as H2 by (vm_compute; reflexivity).
  destruct (Hfail _ _ _ H1) as (_ & H3 & _).
  destruct (Hfail _ _ _ H2) as (_ & H4 & _).
  destruct (Hrows one_point Hs 1%Z (PointData.new (JStr "A") (JFloat 1.0) (JFloat 2.0)))
    as [H5 _]; [vm_compute; reflexivity |].
  exact (conj H1 (conj H2 (conj H3 (conj H4 H5)))).
Defined.


(** C9, a missing field.  In any state, a POST whose body cannot give one
    of the fields of the model raises out of the view, KeyError when the
    body is an object: the request has no response of the view's making,
    none with status 400 in particular; it leaves behind what the hook alone
    leaves behind, with the rows of both tables as they were.  For points
    and for polygons. *)
Theorem post_missing_field_raises (s : app) (data : json) :
  (lacks data "name" \/ lacks data "latitude" \/ lacks data "longitude" ->
   let r := Request POST url_point data in
   (exists e, outcome s r = Raise e /\
      forall members, data = JObj members -> exists k, e = KeyError k) /\
   (forall b status, outcome s r <> Return (Response b status)) /\
   state_after s r = bootstrapped s /\
   point_rows (state_after s r) = point_rows s /\
   polygon_rows (state_after s r) = polygon_rows s) /\
  (lacks data "name" \/ lacks data "coordinates" ->
   let r := Request POST url_polygon data in
   (exists e, outcome s r = Raise e /\
      forall members, data = JObj members -> exists k, e = KeyError k) /\
   (forall b status, outcome s r <> Return (Response b status)) /\
   state_after s r = bootstrapped s /\
   point_rows (state_after s r) = point_rows s /\
   polygon_rows (state_after s r) = polygon_rows s).
Proof.
  split; intros Hmiss r.
  - assert (exists e, outcome s r = Raise e /\
              forall members, data = JObj members -> exists k, e = KeyError k)
      as (e & He & Hkey).
    { rewrite outcome_eq. unfold r, dispatch_request. simpl.
      rewrite handle_point_POST.
      destruct (getitem data "name") as [n|e1] eqn:Hn;
        [| exists e1; split; [done |]; intros m ->; by apply getitem_object_raise in Hn].
      destruct (getitem data "latitude") as [la|e2] eqn:Hla;
        [| exists e2; split; [done |]; intros m ->; by apply getitem_object_raise in Hla].
      destruct (getitem data "longitude") as [lo|e3] eqn:Hlo;
        [| exists e3; split; [done |]; intros m ->; by apply getitem_object_raise in Hlo].
      destruct Hmiss as [H | [H | H]]; by edestruct H. }
    split; [by exists e |]. split; [intros b st; by rewrite He |].
    by apply (request_raise s r e).
  - assert (exists e, outcome s r = Raise e /\
              forall members, data = JObj members -> exists k, e = KeyError k)
      as (e & He & Hkey).
    { rewrite outcome_eq. unfold r, dispatch_request. simpl.
      rewrite handle_polygon_POST.
      destruct (getitem data "name") as [n|e1] eqn:Hn;
        [| exists e1; split; [done |]; intros m ->; by apply getitem_object_raise in Hn].
      destruct (getitem data "coordinates") as [c|e2] eqn:Hc;
        [| exists e2; split; [done |]; intros m ->; by apply getitem_object_raise in Hc].
      destruct Hmiss as [H | H]; by edestruct H. }
    split; [by exists e |]. split; [intros b st; by rewrite He |].
    by apply (request_raise s r e).
Qed.

Lemma post_missing_field_raises_witness :
  lacks (JObj [("name", JStr "A"); ("latitude", JFloat 1.0)]) "longitude" /\
  (exists e, outcome one_point
     (Request POST url_point (JObj [("name", JStr "A"); ("latitude", JFloat 1.0)]))
     = Raise e) /\
  point_rows (state_after one_point
     (Request POST url_point (JObj [("name", JStr "A"); ("latitude", JFloat 1.0)])))
    = point_rows one_point.
Proof.
  assert (lacks (JObj [("name", JStr "A"); ("latitude", JFloat 1.0)]) "longitude") as Hl
    by (intros v; discriminate).
  destruct (post_missing_field_raises one_point
              (JObj [("name", JStr "A"); ("latitude", JFloat 1.0)])) as [Hpt _].
  destruct Hpt as ((e & H1 & _) & _ & _ & H2 & _); [right; right; exact Hl |].
  exact (conj Hl (conj (ex_intro _ e H1) H2)).
Defined.


(** ** Determinism *)

(** C10.  The result of a request is a function of the request and of the
    state; and of the state it is the database alone that counts: in two
    states the service can be in that have the same database, whatever
    their flags, every request has the same outcome and leaves the same
    database, and indeed the same state. *)
Theorem response_depends_on_storage_only (s1 s2 : app) (r : request) :
  reachable s1 -> reachable s2 -> db s1 = db s2 ->
  outcome s1 r = outcome s2 r /\
  db (state_after s1 r) = db (state_after s2 r) /\
  state_after s1 r = state_after s2 r.
Proof.
  intros [_ H1]%reachable_ok [_ H2]%reachable_ok Hdb.
  assert (db (bootstrapped s1) = db (bootstrapped s2)) as Hb.
  { rewrite !bootstrapped_db, <- Hdb in *.
    destruct (tables_initialized s1), (tables_initialized s2); try done.
    - symmetry. by apply create_all_existing, H1.
    - by apply create_all_existing, H2. }
  by rewrite !outcome_eq, !state_after_eq, Hb.
Qed.

Lemma response_depends_on_storage_only_witness :
  tables_initialized one_point <> tables_initialized (restart one_point) /\
  outcome one_point (Request GET (url_point_id 1) JNull)
    = outcome (restart one_point) (Request GET (url_point_id 1) JNull) /\
  db (state_after one_point (Request POST url_point example_point))
    = db (state_after (restart one_point) (Request POST url_point example_point)).
Proof.
  assert (reachable one_point) as Hs by (apply reaches_request, reaches_here).
  split; [discriminate |].
  destruct (response_depends_on_storage_only one_point (restart one_point)
              (Request GET (url_point_id 1) JNull) Hs (reaches_restart _ _ Hs) eq_refl)
    as (H1 & _).
  destruct (response_depends_on_storage_only one_point (restart one_point)
              (Request POST url_point example_point) Hs (reaches_restart _ _ Hs) eq_refl)
    as (_ & H2 & _).
  exact (conj H1 H2).
Defined.


(** * Further properties of the views and of the hook *)

(** ** The tables are there when a view runs *)

Lemma bind_param_not_programming (c : column) (v : json) :
  bind_param c v <> Raise ProgrammingError.
Proof.
  unfold bind_param. destruct v, c; try discriminate;
    try (by destruct (float_value _));
    destruct (text_of _); try discriminate;
    by destruct (_ <=? _)%nat.
Qed.

Lemma point_bind_not_programming (p : PointData.t) :
  PointData.bind p <> Raise ProgrammingError.
Proof.
  unfold PointData.bind.
  pose proof (bind_param_not_programming (db_String 100) (PointData.name p)).
  pose proof (bind_param_not_programming db_Float (PointData.latitude p)).
  pose proof (bind_param_not_programming db_Float (PointData.longitude p)).
  repeat case_match; congruence.
Qed.

Lemma polygon_bind_not_programming (p : PolygonData.t) :
  PolygonData.bind p <> Raise ProgrammingError.
Proof.
  unfold PolygonData.bind.
  pose proof (bind_param_not_programming (db_String 100) (PolygonData.name p)).
  pose proof (bind_param_not_programming db_Text (PolygonData.coordinates p)).
  repeat case_match; congruence.
Qed.

Lemma getitem_not_programming (data : json) (k : string) :
  getitem data k <> Raise ProgrammingError.
Proof. unfold getitem. repeat case_match; discriminate. Qed.

Lemma key_value_not_programming (v : json) : key_value v <> Raise ProgrammingError.
Proof. by destruct v. Qed.

Lemma primary_key_not_programming (ident : json) :
  primary_key ident <> Raise ProgrammingError.
Proof.
  unfold primary_key.
  repeat case_match; try discriminate; apply key_value_not_programming.
Qed.

Lemma query_get_not_programming {A : Type} (t : table A) (loaded : gmap Z A) (ident : json) :
  query_get (Some t) loaded ident <> Raise ProgrammingError.
Proof.
  unfold query_get. pose proof (primary_key_not_programming ident).
  destruct (primary_key ident) as [[| [k|]]|]; try congruence; try discriminate.
  repeat case_match; discriminate.
Qed.

Lemma dispatch_request_finds_tables (r : request) (d : database) :
  tables_exist d -> (run_view (dispatch_request r) d).1 <> Raise ProgrammingError.
Proof.
  intros [[tp Hp] [tg Hg]]. destruct r as [m p b]. unfold dispatch_request. simpl.
  destruct p, m;
    rewrite ?run_view_ret, ?handle_point_POST, ?handle_point_PUT, ?get_point_run,
      ?handle_polygon_POST, ?handle_polygon_PUT, ?get_polygon_run, ?Hp, ?Hg;
    try discriminate;
    repeat match goal with
    | |- context [getitem ?d ?k] =>
        let H := fresh in
        pose proof (getitem_not_programming d k) as H;
        destruct (getitem d k)
    | |- context [query_get (Some ?t) ?l ?i] =>
        let H := fresh in
        pose proof (query_get_not_programming t l i) as H;
        destruct (query_get (Some t) l i) as [[[[??]|] ?]|]
    | |- context [PointData.bind ?p] =>
        let H := fresh in
        pose proof (point_bind_not_programming p) as H;
        destruct (PointData.bind p)
    | |- context [PolygonData.bind ?p] =>
        let H := fresh in
        pose proof (polygon_bind_not_programming p) as H;
        destruct (PolygonData.bind p)
    | |- context [rows ?t !! ?i] => destruct (rows t !! i)
    end; simpl; congruence.
Qed.

(** X1.  The hook does what it is there for: in every state the service can
    be in, and in every state with the flag still false, no request fails
    for want of a table, and both tables exist when the request is over. *)
Theorem views_find_their_tables (s : app) (r : request) :
  reachable s \/ tables_initialized s = false ->
  outcome s r <> Raise ProgrammingError /\
  tables_exist (db (state_after s r)).
Proof.
  intros Hs.
  assert (tables_exist (db (bootstrapped s))) as He.
  { destruct Hs as [Hs | Hs].
    - by apply bootstrapped_exist, reachable_ok.
    - rewrite bootstrapped_db, Hs. apply create_all_exist. }
  split.
  - rewrite outcome_eq. by apply dispatch_request_finds_tables.
  - rewrite state_after_eq. simpl.
    eapply db_change_exist; [apply dispatch_request_change | done].
Qed.

Lemma views_find_their_tables_witness :
  tables_initialized (restart one_point) = false /\
  outcome (restart one_point) (Request PUT url_polygon example_polygon)
    <> Raise ProgrammingError /\
  tables_exist (db (state_after (restart one_point)
                      (Request PUT url_polygon example_polygon))).
Proof.
  split; [reflexivity |].
  apply (views_find_their_tables (restart one_point)). right. reflexivity.
Defined.

(** ** Requests that do not write *)

Lemma dispatch_request_read_only (r : request) (d : database) :
  is_write r = false -> (run_view (dispatch_request r) d).2 = d.
Proof.
  destruct r as [m p b]. unfold is_write, dispatch_request. simpl.
  destruct p, m; try discriminate; intros _;
    rewrite ?run_view_ret, ?get_point_run, ?get_polygon_run;
    repeat case_match; done.
Qed.

Lemma dispatch_request_read_answers (r : request) (d : database) :
  is_write r = false -> tables_exist d ->
  exists resp, (run_view (dispatch_request r) d).1 = Return resp.
Proof.
  intros Hr [[tp Hp] [tg Hg]].
  destruct r as [m p b]. unfold is_write, dispatch_request in *. simpl in *.
  destruct p, m; try discriminate;
    rewrite ?run_view_ret, ?get_point_run, ?get_polygon_run, ?Hp, ?Hg;
    repeat case_match; simpl; eauto.
Qed.

(** X2.  Only POST and PUT on /point and /polygon write.  Any other
    request, in any state whatever, leaves behind what the hook alone leaves
    behind, with the rows of both tables as they were; and in every state
    the service can be in it is answered, by the view or by the routing,
    and does not fail. *)
Theorem only_post_and_put_write (s : app) (r : request) :
  is_write r = false ->
  state_after s r = bootstrapped s /\
  point_rows (state_after s r) = point_rows s /\
  polygon_rows (state_after s r) = polygon_rows s /\
  (reachable s -> exists resp, outcome s r = Return resp).
Proof.
  intros Hr.
  destruct (state_after_unchanged s r) as (H1 & H2 & H3);
    [by apply dispatch_request_read_only |].
  do 3 (split; [done |]).
  intros Hs. rewrite outcome_eq.
  by apply dispatch_request_read_answers, bootstrapped_exist, reachable_ok.
Qed.

Lemma only_post_and_put_write_witness :
  is_write (Request DELETE url_point example_update) = false /\
  state_after one_point (Request DELETE url_point example_update)
    = bootstrapped one_point /\
  point_rows (state_after one_point (Request DELETE url_point example_update))
    = point_rows one_point.
Proof.
  split; [reflexivity |].
  destruct (only_post_and_put_write one_point (Request DELETE url_point example_update))
    as (H1 & H2 & _); [reflexivity |].
  exact (conj H1 H2).
Defined.

Lemma get_outcomes (s : app) (i : N) (b : json) :
  app_ok s ->
  outcome s (Request GET (url_point_id i) b) =
    match point_rows s !! Z.of_N i with
    | Some p => Return (Response (point_json (Z.of_N i) p) 200)
    | None => Return point_not_found
    end /\
  outcome s (Request GET (url_polygon_id i) b) =
    match polygon_rows s !! Z.of_N i with
    | Some p => Return (Response (polygon_json (Z.of_N i) p) 200)
    | None => Return polygon_not_found
    end.
Proof.
  intros Hs.
  destruct (bootstrapped_tables s Hs) as (tp & tg & Hdb & Hp & Hg & _).
  rewrite !outcome_eq. unfold dispatch_request. simpl.
  rewrite get_point_run, get_polygon_run, Hdb. simpl. rewrite Hp, Hg.
  split; by case_match.
Qed.

(** X3.  GET shows what is stored.  In every state the service can be in,
    GET on a key answers 200 with the key and the fields of the row under
    it when there is one, and 404 otherwise; it never fails.  For points
    and for polygons. *)
Theorem get_shows_the_row (s : app) (i : N) (b : json) :
  reachable s ->
  outcome s (Request GET (url_point_id i) b) =
    match point_rows s !! Z.of_N i with
    | Some p => Return (Response (point_json (Z.of_N i) p) 200)
    | None => Return point_not_found
    end /\
  outcome s (Request GET (url_polygon_id i) b) =
    match polygon_rows s !! Z.of_N i with
    | Some p => Return (Response (polygon_json (Z.of_N i) p) 200)
    | None => Return polygon_not_found
    end.
Proof. intros Hs. by apply get_outcomes, reachable_ok. Qed.

Lemma get_shows_the_row_witness :
  reachable one_point /\
  outcome one_point (Request GET (url_point_id 1) JNull)
    = Return (Response (point_json 1 (PointData.new (JStr "A") (JFloat 1.0) (JFloat 2.0))) 200).
Proof.
  assert (reachable one_point) as Hs by (apply reaches_request, reaches_here).
  split; [exact Hs |].
  destruct (get_shows_the_row one_point 1%N JNull Hs) as [H _]. exact H.
Defined.

(** ** One table at a time, one row at a time *)

Lemma dispatch_request_other_table (r : request) (d : database) :
  (on_points r = true ->
     polygon_data (run_view (dispatch_request r) d).2 = polygon_data d) /\
  (on_polygons r = true ->
     point_data (run_view (dispatch_request r) d).2 = point_data d).
Proof.
  destruct r as [m p b]. unfold on_points, on_polygons, dispatch_request. simpl.
  split; destruct p, m; try discriminate; intros _;
    rewrite ?run_view_ret, ?handle_point_POST, ?handle_point_PUT, ?get_point_run,
      ?handle_polygon_POST, ?handle_polygon_PUT, ?get_polygon_run;
    repeat case_match; done.
Qed.

(** X4.  The two resources are independent.  In any state whatever, a
    request on /point or /point/<id>, whatever its method, body and
    outcome, leaves the polygon table as the hook leaves it, rows and
    counter; and a request on /polygon or /polygon/<id> does so for the
    point table. *)
Theorem resources_are_independent (s : app) (r : request) :
  (on_points r = true ->
     polygon_data (db (state_after s r)) = polygon_data (db (bootstrapped s)) /\
     polygon_rows (state_after s r) = polygon_rows s) /\
  (on_polygons r = true ->
     point_data (db (state_after s r)) = point_data (db (bootstrapped s)) /\
     point_rows (state_after s r) = point_rows s).
Proof.
  destruct (dispatch_request_other_table r (db (bootstrapped s))) as [Hp Hg].
  destruct (bootstrapped_rows s) as [Hbp Hbg].
  rewrite state_after_eq. simpl.
  split; intros Hr.
  - rewrite <- Hbg. unfold polygon_rows. simpl. by rewrite (Hp Hr).
  - rewrite <- Hbp. unfold point_rows. simpl. by rewrite (Hg Hr).
Qed.

Lemma resources_are_independent_witness :
  on_points (Request PUT url_point example_update) = true /\
  polygon_rows (state_after one_of_each (Request PUT url_point example_update))
    = polygon_rows one_of_each.
Proof.
  split; [reflexivity |].
  destruct (resources_are_independent one_of_each (Request PUT url_point example_update))
    as [H _].
  destruct (H eq_refl) as [_ H2]. exact H2.
Defined.

(** X5.  A request changes at most one row, and removes none.  In every
    state the service can be in, after any request either both tables have
    the rows they had, or one of them has one more row, well typed, under a
    key that was free and lies above every key of that table, or one of
    them has one row overwritten by a well-typed one under a key it already
    had; the other table has the rows it had. *)
Theorem request_changes_one_row (s : app) (r : request) :
  reachable s ->
  let s' := state_after s r in
  (point_rows s' = point_rows s /\ polygon_rows s' = polygon_rows s) \/
  (exists i p,
     point_rows s !! i = None /\
     (forall j, is_Some (point_rows s !! j) -> (j < i)%Z) /\
     well_typed_point p = true /\
     point_rows s' = <[i := p]> (point_rows s) /\
     polygon_rows s' = polygon_rows s) \/
  (exists i p, is_Some (point_rows s !! i) /\
     well_typed_point p = true /\
     point_rows s' = <[i := p]> (point_rows s) /\
     polygon_rows s' = polygon_rows s) \/
  (exists i p,
     polygon_rows s !! i = None /\
     (forall j, is_Some (polygon_rows s !! j) -> (j < i)%Z) /\
     well_typed_polygon p = true /\
     polygon_rows s' = <[i := p]> (polygon_rows s) /\
     point_rows s' = point_rows s) \/
  (exists i p, is_Some (polygon_rows s !! i) /\
     well_typed_polygon p = true /\
     polygon_rows s' = <[i := p]> (polygon_rows s) /\
     point_rows s' = point_rows s).
Proof.
  intros Hs s'. apply reachable_ok in Hs.
  destruct (bootstrapped_tables s Hs) as (tp & tg & Hdb & Hp & Hg & Hokp & Hokg).
  pose proof (dispatch_request_change r (db (bootstrapped s))) as Hc.
  unfold s'. rewrite state_after_eq. unfold point_rows, polygon_rows. simpl.
  fold (point_rows s) (polygon_rows s).
  destruct Hc as [ | t p Ht Hb | t i p0 p Ht Hi Hb | t p Ht Hb | t i p0 p Ht Hi Hb ];
    rewrite Hdb in *; simpl in *; simplify_eq.
  - left. by rewrite Hp, Hg.
  - right; left. exists (auto_increment t), p.
    destruct (table_ok_fresh _ _ Hokp) as [Hfree Hlt]. rewrite Hp in Hfree, Hlt.
    by rewrite Hp, Hg.
  - right; right; left. exists i, p.
    rewrite Hp in Hi. rewrite Hp, Hg. eauto.
  - right; right; right; left. exists (auto_increment t), p.
    destruct (table_ok_fresh _ _ Hokg) as [Hfree Hlt]. rewrite Hg in Hfree, Hlt.
    by rewrite Hp, Hg.
  - right; right; right; right. exists i, p.
    rewrite Hg in Hi. rewrite Hp, Hg. eauto.
Qed.

Lemma request_changes_one_row_witness :
  reachable one_point /\
  is_Some (point_rows (state_after one_point (Request PUT url_point example_update)) !! 1%Z).
Proof.
  assert (reachable one_point) as Hs by (apply reaches_request, reaches_here).
  split; [exact Hs |].
  assert (is_Some (point_rows one_point !! 1%Z)) as Hi by (vm_compute; eauto).
  destruct (request_changes_one_row one_point (Request PUT url_point example_update) Hs)
    as [[H _] | [(j & p & _ & _ & _ & H & _) | [(j & p & _ & _ & H & _) |
        [(j & p & _ & _ & _ & _ & H) | (j & p & _ & _ & _ & H)]]]];
    rewrite H; try exact Hi;
    rewrite lookup_insert; destruct (decide (j = 1%Z)); eauto.
Defined.

(** ** What a view reads of the body *)

(** X6.  A create-or-update view reads the members it names and nothing
    else.  In any state whatever, two POST bodies that give the same for
    name, latitude and longitude have the same outcome and leave the same
    state: an id in the body of a POST, in particular, is ignored.  Two PUT
    bodies that give the same for id, name, latitude and longitude do so as
    well.  Likewise for polygons, with coordinates. *)
Theorem views_read_only_their_fields (s : app) (data data' : json) :
  getitem data "name" = getitem data' "name" ->
  (getitem data "latitude" = getitem data' "latitude" ->
   getitem data "longitude" = getitem data' "longitude" ->
   full_dispatch_request s (Request POST url_point data)
     = full_dispatch_request s (Request POST url_point data') /\
   (getitem data "id" = getitem data' "id" ->
    full_dispatch_request s (Request PUT url_point data)
      = full_dispatch_request s (Request PUT url_point data'))) /\
  (getitem data "coordinates" = getitem data' "coordinates" ->
   full_dispatch_request s (Request POST url_polygon data)
     = full_dispatch_request s (Request POST url_polygon data') /\
   (getitem data "id" = getitem data' "id" ->
    full_dispatch_request s (Request PUT url_polygon data)
      = full_dispatch_request s (Request PUT url_polygon data'))).
Proof.
  intros Hn. rewrite !full_dispatch_request_eq. unfold dispatch_request. simpl.
  split.
  - intros Hla Hlo. split; [| intros Hid].
    + by rewrite !handle_point_POST, Hn, Hla, Hlo.
    + by rewrite !handle_point_PUT, Hid, Hn, Hla, Hlo.
  - intros Hc. split; [| intros Hid].
    + by rewrite !handle_polygon_POST, Hn, Hc.
    + by rewrite !handle_polygon_PUT, Hid, Hn, Hc.
Qed.

Lemma views_read_only_their_fields_witness :
  full_dispatch_request one_point (Request POST url_point example_point)
    = full_dispatch_request one_point (Request POST url_point
        (JObj [("id", JInt 1); ("name", JStr "A"); ("latitude", JFloat 1.0);
               ("longitude", JFloat 2.0); ("altitude", JInt 7)])).
Proof.
  destruct (views_read_only_their_fields one_point example_point
              (JObj [("id", JInt 1); ("name", JStr "A"); ("latitude", JFloat 1.0);
                     ("longitude", JFloat 2.0); ("altitude", JInt 7)]) eq_refl)
    as [H _].
  destruct (H eq_refl eq_refl) as [H1 _]. exact H1.
Defined.

(** ** What an answer tells *)






(** ** Repeating a request *)

Ltac rerun_put :=
  simpl; rewrite ?handle_point_PUT, ?handle_polygon_PUT;
  repeat match goal with H : _ = _ |- _ => rewrite H end; done.

Lemma put_point_stable (data : json) (d : database) :
  run_view (handle_point PUT data) (run_view (handle_point PUT data) d).2
    = run_view (handle_point PUT data) d.
Proof.
  rewrite (handle_point_PUT data d).
  destruct (getitem data "id") as [ident|] eqn:Hid; [| rerun_put].
  destruct (point_data d) as [t|] eqn:Ht.
  - destruct (query_get (Some t) ∅ ident) as [[[[i p0]|] loaded]|] eqn:Hq;
      [| rerun_put | rerun_put].
    destruct (getitem data "name") as [n|] eqn:Hn; [| rerun_put].
    destruct (getitem data "latitude") as [la|] eqn:Hla; [| rerun_put].
    destruct (getitem data "longitude") as [lo|] eqn:Hlo; [| rerun_put].
    destruct (PointData.bind _) as [row|] eqn:Hb; [| rerun_put].
    apply query_get_found in Hq as (t' & [= <-] & Hi & -> & Hk).
    simpl. rewrite handle_point_PUT, Hid. simpl.
    rewrite (query_get_key _ _ i Hk). simpl. rewrite lookup_insert_eq, Hn, Hla, Hlo, Hb.
    by rewrite insert_insert_eq.
  - destruct (query_get None ∅ ident) as [[[[i p0]|] loaded]|] eqn:Hq;
      [| rerun_put | rerun_put].
    by apply query_get_found in Hq as (t' & [=] & _).
Qed.

Lemma put_polygon_stable (data : json) (d : database) :
  run_view (handle_polygon PUT data) (run_view (handle_polygon PUT data) d).2
    = run_view (handle_polygon PUT data) d.
Proof.
  rewrite (handle_polygon_PUT data d).
  destruct (getitem data "id") as [ident|] eqn:Hid; [| rerun_put].
  destruct (polygon_data d) as [t|] eqn:Ht.
  - destruct (query_get (Some t) ∅ ident) as [[[[i p0]|] loaded]|] eqn:Hq;
      [| rerun_put | rerun_put].
    destruct (getitem data "name") as [n|] eqn:Hn; [| rerun_put].
    destruct (getitem data "coordinates") as [c|] eqn:Hc; [| rerun_put].
    destruct (PolygonData.bind _) as [row|] eqn:Hb; [| rerun_put].
    apply query_get_found in Hq as (t' & [= <-] & Hi & -> & Hk).
    simpl. rewrite handle_polygon_PUT, Hid. simpl.
    rewrite (query_get_key _ _ i Hk). simpl. rewrite lookup_insert_eq, Hn, Hc, Hb.
    by rewrite insert_insert_eq.
  - destruct (query_get None ∅ ident) as [[[[i p0]|] loaded]|] eqn:Hq;
      [| rerun_put | rerun_put].
    by apply query_get_found in Hq as (t' & [=] & _).
Qed.

Lemma bootstrapped_state_after (s : app) (r : request) :
  bootstrapped (state_after s r) = state_after s r.
Proof. by rewrite state_after_eq. Qed.

(** X9.  PUT is idempotent.  In any state whatever and for any body, a
    second PUT of the same body right after the first has the same outcome
    as the first and leaves the state the first left.  For points and for
    polygons. *)
Theorem put_is_idempotent (s : app) (data : json) :
  (outcome (state_after s (Request PUT url_point data)) (Request PUT url_point data)
     = outcome s (Request PUT url_point data) /\
   state_after (state_after s (Request PUT url_point data)) (Request PUT url_point data)
     = state_after s (Request PUT url_point data)) /\
  (outcome (state_after s (Request PUT url_polygon data)) (Request PUT url_polygon data)
     = outcome s (Request PUT url_polygon data) /\
   state_after (state_after s (Request PUT url_polygon data)) (Request PUT url_polygon data)
     = state_after s (Request PUT url_polygon data)).
Proof.
  split.
  - rewrite (outcome_eq (state_after _ _)), (state_after_eq (state_after _ _)).
    rewrite bootstrapped_state_after, outcome_eq, state_after_eq.
    unfold dispatch_request. simpl. by rewrite put_point_stable.
  - rewrite (outcome_eq (state_after _ _)), (state_after_eq (state_after _ _)).
    rewrite bootstrapped_state_after, outcome_eq, state_after_eq.
    unfold dispatch_request. simpl. by rewrite put_polygon_stable.
Qed.



(** ** Which error *)

(** X11.  The fields are read in the order of the source, and the first
    that cannot be read decides.  In any state whatever, a POST on /point
    raises what [data["name"]] raises, or else what [data["latitude"]]
    raises, or else what [data["longitude"]] raises; a PUT raises what
    [data["id"]] raises, whatever the table holds.  In every state the
    service can be in, a PUT whose id is a key of the table raises what the
    first of name, latitude and longitude that cannot be read raises, the
    assignments made before it notwithstanding.  With [getitem] that is
    KeyError with the name of the member for an object that lacks it, and
    TypeError for a body that is no object. *)
Theorem first_unreadable_field_decides (s : app) (data : json) (e : exn) :
  (getitem data "name" = Raise e ->
   outcome s (Request POST url_point data) = Raise e) /\
  (forall n, getitem data "name" = Return n ->
   getitem data "latitude" = Raise e ->
   outcome s (Request POST url_point data) = Raise e) /\
  (forall n la, getitem data "name" = Return n ->
   getitem data "latitude" = Return la ->
   getitem data "longitude" = Raise e ->
   outcome s (Request POST url_point data) = Raise e) /\
  (getitem data "id" = Raise e ->
   outcome s (Request PUT url_point data) = Raise e) /\
  (reachable s ->
   forall i, getitem data "id" = Return (JInt i) -> is_Some (point_rows s !! i) ->
   (getitem data "name" = Raise e ->
    outcome s (Request PUT url_point data) = Raise e) /\
   (forall n, getitem data "name" = Return n ->
    getitem data "latitude" = Raise e ->
    outcome s (Request PUT url_point data) = Raise e) /\
   (forall n la, getitem data "name" = Return n ->
    getitem data "latitude" = Return la ->
    getitem data "longitude" = Raise e ->
    outcome s (Request PUT url_point data) = Raise e)).
Proof.
  rewrite !outcome_eq. unfold dispatch_request. simpl.
  rewrite handle_point_POST, handle_point_PUT.
  split; [by intros -> |].
  split; [by intros n -> -> |].
  split; [by intros n la -> -> -> |].
  split; [by intros -> |].
  intros Hs i Hid [old Hold]. apply reachable_ok in Hs.
  destruct (bootstrapped_tables s Hs) as (tp & tg & Hdb & Hp & Hg & _).
  rewrite <- Hp in Hold. rewrite Hdb, Hid. simpl. rewrite query_get_int, Hold.
  split; [by intros -> |].
  split; [by intros n -> -> |].
  by intros n la -> -> ->.
Qed.

Lemma first_unreadable_field_decides_witness :
  reachable one_point /\
  outcome one_point (Request PUT url_point example_partial_update)
    = Raise (KeyError "latitude") /\
  outcome one_point (Request POST url_point (JArr [JStr "A"; JFloat 1.0; JFloat 2.0]))
    = Raise TypeError.
Proof.
  assert (reachable one_point) as Hs by (apply reaches_request, reaches_here).
  split; [exact Hs |]. split.
  - destruct (first_unreadable_field_decides one_point example_partial_update
                (KeyError "latitude")) as (_ & _ & _ & _ & H).
    destruct (H Hs 1%Z eq_refl) as (_ & H2 & _); [vm_compute; eauto |].
    exact (H2 (JStr "B") eq_refl eq_refl).
  - destruct (first_unreadable_field_decides one_point
                (JArr [JStr "A"; JFloat 1.0; JFloat 2.0]) TypeError) as (H & _).
    exact (H eq_refl).
Defined.

(** ** Update and read back *)



(** ** The hook when requests overlap *)

Lemma worker_step_at (sv : server) (i : nat) (pc : hook_pc) :
  workers sv !! i = Some pc ->
  worker_step sv i =
    Server (hook_step (process sv) pc).1.1
           (log sv ++ (hook_step (process sv) pc).1.2)
           (<[i := (hook_step (process sv) pc).2]> (workers sv)).
Proof.
  intros H. unfold worker_step. rewrite H.
  by destruct (hook_step (process sv) pc) as [[s' t] pc'].
Qed.

Lemma replicate_snoc {A : Type} (k : nat) (x : A) :
  (replicate k x ++ [x] = replicate (S k) x)%list.
Proof. induction k as [| k IH]; [done |]. simpl. by rewrite IH. Qed.

Lemma lookup_front (k m : nat) (X Y : hook_pc) :
  (replicate k Y ++ replicate (S m) X)%list !! k = Some X.
Proof. rewrite lookup_app_r, length_replicate, Nat.sub_diag by (by rewrite length_replicate). done. Qed.

Lemma insert_front (k m : nat) (X Y : hook_pc) :
  (<[k := Y]> (replicate k Y ++ X :: replicate m X)
   = replicate (S k) Y ++ replicate m X)%list.
Proof.
  rewrite insert_app_r_alt, length_replicate, Nat.sub_diag by (by rewrite length_replicate).
  simpl. induction k as [| k IH]; simpl; [done | by rewrite IH].
Qed.

(** A run of one line by each of the workers [k], ..., [k + m - 1], all
    standing at [X], when the line moves a worker to [Y] and adds [t] to
    the log in every state that satisfies [Q]. *)
Lemma one_line_each (X Y : hook_pc) (t : list effect) (Q : app -> Prop) :
  (forall s, Q s ->
     (hook_step s X).1.2 = t /\ (hook_step s X).2 = Y /\ Q (hook_step s X).1.1) ->
  forall m k s l, Q s ->
    exists s',
      Q s' /\
      interleave (Server s l (replicate k Y ++ replicate m X)) (seq k m)
        = Server s' (l ++ concat (replicate m t)) (replicate (k + m) Y).
Proof.
  intros Hstep. induction m as [| m IH]; intros k s l HQ.
  - exists s. split; [done |]. simpl. by rewrite !app_nil_r, Nat.add_0_r.
  - simpl. rewrite (worker_step_at _ k X) by apply lookup_front. simpl.
    destruct (Hstep s HQ) as (-> & -> & HQ').
    rewrite insert_front.
    destruct (IH (S k) _ (l ++ t)%list HQ') as (s' & HQs' & ->).
    exists s'. split; [done |]. f_equal; [by rewrite <- app_assoc | f_equal; lia].
Qed.

Lemma concat_replicate_nil {A : Type} (n : nat) : concat (replicate n (@nil A)) = [].
Proof. induction n; [done | by simpl]. Qed.

Lemma concat_replicate_singleton {A : Type} (n : nat) (x : A) :
  concat (replicate n [x]) = replicate n x.
Proof. induction n as [| n IH]; [done |]. simpl. by rewrite IH. Qed.

(** X15.  The flag does not make the call happen once when requests
    overlap.  For any number [n] of requests that arrive at a process whose
    flag is false, in the schedule in which every worker runs the test
    before any worker goes on, every worker passes the hook and
    [db.create_all()] has been called [n] times. *)
Theorem overlapping_requests_all_create (s : app) (n : nat) :
  tables_initialized s = false ->
  workers (interleave (arrivals s n) (in_lockstep n)) = replicate n at_view /\
  log (interleave (arrivals s n) (in_lockstep n)) = replicate n CreateAll.
Proof.
  intros Hs. unfold in_lockstep, interleave, arrivals. rewrite !foldl_app.
  fold (interleave (Server s [] (replicate n at_test)) (seq 0 n)).
  destruct (one_line_each at_test at_create_all []
              (fun s => tables_initialized s = false)) with (m := n) (k := 0) (s := s)
              (l := @nil effect) as (s1 & Hs1 & H1); [| done |].
  { intros s0 H0. simpl. by rewrite H0. }
  simpl in H1. rewrite H1. clear H1.
  rewrite concat_replicate_nil.
  change (replicate n at_create_all) with ([] ++ replicate n at_create_all)%list.
  fold (interleave (Server s1 [] ([] ++ replicate n at_create_all)) (seq 0 n)).
  destruct (one_line_each at_create_all at_set_flag [CreateAll] (fun _ => True))
    with (m := n) (k := 0) (s := s1) (l := @nil effect) as (s2 & _ & H2); [done | done |].
  simpl in H2. simpl. rewrite H2. clear H2.
  rewrite concat_replicate_singleton.
  change (replicate n at_set_flag) with ([] ++ replicate n at_set_flag)%list.
  fold (interleave (Server s2 (replicate n CreateAll) ([] ++ replicate n at_set_flag)) (seq 0 n)).
  destruct (one_line_each at_set_flag at_view [] (fun _ => True))
    with (m := n) (k := 0) (s := s2) (l := replicate n CreateAll) as (s3 & _ & H3);
    [done | done |].
  simpl in H3. simpl. rewrite H3. simpl.
  by rewrite concat_replicate_nil, app_nil_r.
Qed.

Lemma overlapping_requests_all_create_witness :
  tables_initialized pristine = false /\
  log (interleave (arrivals pristine 2) (in_lockstep 2)) = [CreateAll; CreateAll].
Proof.
  split; [reflexivity |].
  destruct (overlapping_requests_all_create pristine 2 eq_refl) as [_ H]. exact H.
Defined.

Lemma calls_to_come_insert (pcs : list hook_pc) (i : nat) (a b : hook_pc) :
  pcs !! i = Some a ->
  calls_to_come (<[i := b]> pcs) + may_still_call a = calls_to_come pcs + may_still_call b.
Proof.
  revert i. induction pcs as [| pc pcs IH]; intros i Hi; [done |].
  destruct i as [| i]; simpl in *.
  - injection Hi as ->. lia.
  - specialize (IH i Hi). lia.
Qed.

Lemma calls_to_come_replicate (n : nat) : calls_to_come (replicate n at_test) = n.
Proof. induction n as [| n IH]; [done |]. simpl. by rewrite IH. Qed.

Lemma tables_exist_create_all_keep (d : database) :
  rows_of (point_data (create_all d)) = rows_of (point_data d) /\
  rows_of (polygon_data (create_all d)) = rows_of (polygon_data d).
Proof. apply rows_of_create_all. Qed.

(** What holds of a process and its workers after any schedule. *)
Ltac moved_worker H :=
  apply list_lookup_insert_Some in H as [(? & ? & ?) | (? & H)]; simplify_eq.

Lemma interleave_invariant (s : app) (n : nat) (schedule : list nat) :
  (tables_initialized s = true -> tables_exist (db s)) ->
  let sv := interleave (arrivals s n) schedule in
  length (log sv) + calls_to_come (workers sv) <= n /\
  (forall i, workers sv !! i = Some at_view -> tables_initialized (process sv) = true) /\
  (tables_initialized (process sv) = true -> tables_exist (db (process sv))) /\
  (forall i, workers sv !! i = Some at_set_flag ->
     tables_exist (db (process sv)) /\ 1 <= length (log sv)) /\
  (tables_initialized (process sv) = true -> tables_initialized s = false ->
     1 <= length (log sv)) /\
  (tables_initialized s = true ->
     tables_initialized (process sv) = true /\ log sv = [] /\
     forall i pc, workers sv !! i = Some pc -> pc = at_test \/ pc = at_view) /\
  rows_of (point_data (db (process sv))) = point_rows s /\
  rows_of (polygon_data (db (process sv))) = polygon_rows s.
Proof.
  intros H0. induction schedule as [| i schedule IH] using rev_ind.
  - simpl. rewrite calls_to_come_replicate.
    split; [lia |]. split; [by intros i [? _]%lookup_replicate |].
    split; [done |]. split; [by intros i [? _]%lookup_replicate |].
    split; [intros; congruence |].
    split; [| done]. intros Hs. do 2 (split; [done |]).
    intros i pc [-> _]%lookup_replicate. by left.
  - unfold interleave in *. rewrite foldl_app. simpl.
    set (sv := foldl worker_step (arrivals s n) schedule) in *. simpl in IH.
    destruct IH as (Hcount & Hview & Hflag & Hset & Hlog & Htrue & Hpt & Hpg).
    clearbody sv.
    destruct (workers sv !! i) as [pc|] eqn:Hi;
      [| unfold worker_step; rewrite Hi; done].
    rewrite (worker_step_at sv i pc Hi).
    pose proof (calls_to_come_insert (workers sv) i pc) as Hins.
    destruct pc; unfold hook_step; cbn [fst snd log workers process].
    + (* the test of the flag *)
      destruct (tables_initialized (process sv)) eqn:Hf;
        cbn [negb fst snd log workers process]; rewrite app_nil_r.
      * specialize (Hins at_view Hi). cbn [may_still_call] in Hins.
        split; [lia |].
        split; [done |].
        split; [intros _; by apply Hflag |].
        split; [intros j Hj; moved_worker Hj; eauto |].
        split; [intros _; by apply Hlog |].
        split; [| done]. intros Hs. destruct (Htrue Hs) as (_ & ? & Hpcs).
        do 2 (split; [done |]).
        intros j pc Hj. moved_worker Hj; eauto.
      * specialize (Hins at_create_all Hi). cbn [may_still_call] in Hins.
        split; [lia |].
        split; [intros j Hj; moved_worker Hj; eauto |].
        split; [intros; congruence |].
        split; [intros j Hj; moved_worker Hj; eauto |].
        split; [intros; congruence |].
        split; [| done]. intros Hs. by destruct (Htrue Hs) as (? & _).
    + (* the call *)
      specialize (Hins at_set_flag Hi). cbn [may_still_call] in Hins.
      rewrite length_app. cbn [db tables_initialized length].
      destruct (tables_exist_create_all_keep (db (process sv))) as [-> ->].
      pose proof (create_all_exist (db (process sv))) as Hex.
      split; [lia |].
      split; [intros j Hj; moved_worker Hj; eauto |].
      split; [done |].
      split; [intros j _; split; [done | lia] |].
      split; [intros; lia |].
      split; [| done]. intros Hs. destruct (Htrue Hs) as (_ & _ & Hpcs).
      by destruct (Hpcs i at_create_all Hi).
    + (* the assignment *)
      specialize (Hins at_view Hi). cbn [may_still_call] in Hins. rewrite app_nil_r.
      destruct (Hset i Hi) as [Hex H1]. cbn [db tables_initialized].
      split; [lia |].
      split; [done |].
      split; [done |].
      split; [intros j Hj; moved_worker Hj; eauto |].
      split; [done |].
      split; [| done]. intros Hs. destruct (Htrue Hs) as (_ & _ & Hpcs).
      by destruct (Hpcs i at_set_flag Hi).
    + (* past the hook *)
      rewrite app_nil_r, list_insert_id by done. by destruct (process sv).
Qed.

(** X14.  What the hook keeps under any interleaving.  Let [n] requests
    arrive at a process in a state the service can be in, or with the flag
    false, and let the workers run the lines of the hook in any order, for
    any number of steps.  Then [db.create_all()] has been called at most
    [n] times, and not at all when the flag was true; no worker is past the
    hook unless the flag is true and both tables exist; if the flag was
    false and a worker is past the hook, [db.create_all()] has been called
    at least once; and the rows of both tables are untouched. *)
Theorem hook_under_any_schedule (s : app) (n : nat) (schedule : list nat) :
  reachable s \/ tables_initialized s = false ->
  let sv := interleave (arrivals s n) schedule in
  length (log sv) <= n /\
  (tables_initialized s = true -> log sv = []) /\
  (forall i, workers sv !! i = Some at_view ->
     tables_initialized (process sv) = true /\ tables_exist (db (process sv))) /\
  (tables_initialized s = false ->
     (exists i, workers sv !! i = Some at_view) -> 1 <= length (log sv)) /\
  point_rows (process sv) = point_rows s /\
  polygon_rows (process sv) = polygon_rows s.
Proof.
  intros Hs sv.
  assert (tables_initialized s = true -> tables_exist (db s)) as H0.
  { destruct Hs as [Hs | Hs]; [by apply reachable_ok in Hs as [_ ?] | congruence]. }
  destruct (interleave_invariant s n schedule H0)
    as (Hcount & Hview & Hflag & Hset & Hlog & Htrue & Hpt & Hpg).
  fold sv in Hcount, Hview, Hflag, Hset, Hlog, Htrue, Hpt, Hpg.
  split; [lia |].
  split; [intros Hf; by destruct (Htrue Hf) as (_ & ? & _) |].
  split; [intros i Hi; split; [eauto | eauto] |].
  split; [intros Hf [i Hi]; eauto | done].
Qed.

Lemma hook_under_any_schedule_witness :
  tables_initialized pristine = false /\
  length (log (interleave (arrivals pristine 3) [0; 1; 1; 0; 2; 1; 0; 5; 2])) <= 3.
Proof.
  split; [reflexivity |].
  destruct (hook_under_any_schedule pristine 3 [0; 1; 1; 0; 2; 1; 0; 5; 2])
    as (H & _); [right; reflexivity |].
  exact H.
Defined.

Lemma worker_step_past_hook (sv : server) (i : nat) :
  workers sv !! i = Some at_view -> worker_step sv i = sv.
Proof.
  intros Hi. rewrite (worker_step_at sv i at_view Hi). simpl.
  rewrite app_nil_r, list_insert_id by done. by destruct sv.
Qed.

(** Workers that arrive one after another at a process whose flag is true
    pass the hook and change nothing. *)
Lemma one_by_one_initialized (s : app) (l : list effect) (m k : nat) :
  tables_initialized s = true ->
  interleave (Server s l (replicate k at_view ++ replicate m at_test)) (one_by_one k m)
    = Server s l (replicate (k + m) at_view).
Proof.
  intros Hs. revert k. induction m as [| m IH]; intros k.
  - simpl. by rewrite app_nil_r, Nat.add_0_r.
  - unfold one_by_one, interleave in *. simpl.
    rewrite (worker_step_at
               (Server s l (replicate k at_view ++ at_test :: replicate m at_test)) k at_test)
      by apply lookup_front.
    simpl. rewrite Hs. simpl. rewrite app_nil_r, insert_front.
    assert ((replicate (S k) at_view ++ replicate m at_test)%list !! k = Some at_view) as Hk.
    { rewrite lookup_app_l by (rewrite length_replicate; lia).
      apply lookup_replicate. split; [done | lia]. }
    rewrite !(worker_step_past_hook
                (Server s l (replicate (S k) at_view ++ replicate m at_test)) k)
      by exact Hk.
    rewrite IH. f_equal. f_equal. lia.
Qed.

Lemma first_worker_alone (s : app) (rest : list hook_pc) :
  interleave (Server s [] (at_test :: rest)) [0; 0; 0]
    = Server (bootstrapped s) (create_tables s).2 (at_view :: rest).
Proof.
  unfold interleave, bootstrapped, create_tables. simpl.
  rewrite (worker_step_at (Server s [] (at_test :: rest)) 0 at_test eq_refl). simpl.
  destruct (tables_initialized s) eqn:Hs; simpl.
  - rewrite !(worker_step_past_hook (Server s [] (at_view :: rest)) 0 eq_refl).
    by destruct s; simpl in *; subst.
  - rewrite (worker_step_at (Server s [] (at_create_all :: rest)) 0 at_create_all eq_refl).
    simpl. rewrite Hs.
    by rewrite (worker_step_at (Server (App false (create_all (db s))) [CreateAll]
                                  (at_set_flag :: rest)) 0 at_set_flag eq_refl).
Qed.

(** X13.  Requests that do not overlap create the tables once.  When one
    request or more arrive and each worker runs the three lines of the hook
    before the next worker starts, every worker passes the hook, the process
    is left as [create_tables] leaves it, and [db.create_all()] has been
    called as often as [create_tables] calls it: once when the flag was
    false, never when it was true. *)
Theorem requests_one_by_one_create_once (s : app) (n : nat) :
  0 < n ->
  workers (interleave (arrivals s n) (one_by_one 0 n)) = replicate n at_view /\
  process (interleave (arrivals s n) (one_by_one 0 n)) = bootstrapped s /\
  log (interleave (arrivals s n) (one_by_one 0 n)) = (create_tables s).2.
Proof.
  intros Hn. destruct n as [| n]; [lia |].
  change (one_by_one 0 (S n)) with ([0; 0; 0] ++ one_by_one 1 n)%list.
  change (arrivals s (S n)) with (Server s [] (at_test :: replicate n at_test)).
  unfold interleave. rewrite foldl_app.
  pose proof (first_worker_alone s (replicate n at_test)) as H1.
  unfold interleave in H1. rewrite H1.
  pose proof (one_by_one_initialized (bootstrapped s) (create_tables s).2 n 1
                (bootstrapped_flag s)) as H2.
  unfold interleave in H2. simpl in H2. by rewrite H2.
Qed.

Lemma requests_one_by_one_create_once_witness :
  0 < 3 /\
  log (interleave (arrivals pristine 3) (one_by_one 0 3)) = [CreateAll].
Proof.
  split; [lia |].
  destruct (requests_one_by_one_create_once pristine 3) as (_ & _ & H); [lia |].
  exact H.
Defined.
